(** * ERHelper: the ingestion, cache and query core of [backend/app.py]

    A shallow embedding of the loader ([load_elden_ring_data]), the query
    functions ([search_enemies], [get_enemy_details], [search_by_region],
    [calculate_region_average]) and the advisory cache ([analyze_with_ai],
    [update_ai_cache]) of the Elden Ring helper backend.

    Conventions of the embedding:
    - a spreadsheet cell read with [dtype=object] is a [cell]: missing,
      a number or a text;
    - numbers are exact rationals ([Q]); binary rounding of float64 and the
      non-finite floats are outside the model;
    - a data frame is its ordered column labels and its rows, a row being
      a finite map from labels to cells;
    - the functions of pandas, re and the Python built-ins that parse or
      print text are the fields of the interface [PyLib];
    - code that can raise returns a [Result]. *)

From Stdlib Require Import ZArith QArith Qround Ascii String.
From stdpp Require Import gmap strings list.

Local Open Scope string_scope.

(** ** Exceptions and results *)

Inductive exn :=
  | KeyError (key : string)
  | ReError
  | AttributeError
  | ServiceError
  | TypeError
  | ValueError
  | UnpicklingError.

Inductive Result (A : Type) :=
  | Ok (a : A)
  | Raise (e : exn).
Arguments Ok {A} a.
Arguments Raise {A} e.

#[global] Instance result_ret : MRet Result := λ A a, Ok a.

#[global] Instance result_bind : MBind Result := λ A B k r,
  match r with
  | Ok a => k a
  | Raise e => Raise e
  end.


(** ** Cells *)

Inductive cell :=
  | NA
  | Num (q : Q)
  | Str (s : string).

(** [pd.isna] / [pd.notna] on a scalar. *)
Definition isna (c : cell) : bool :=
  match c with NA => true | _ => false end.

Definition notna (c : cell) : bool := negb (isna c).

(** [value == '-'], [value != '-'] and the like: a cell equals a text
    only when it is that text. *)
Definition cell_eq_str (c : cell) (s : string) : bool :=
  match c with
  | Str t => bool_decide (t = s)
  | _ => false
  end.

(** A row of a frame: the cells under the labels. *)
Abbreviation Row := (gmap string cell).

(** ** Text helpers *)

Definition lower_ascii (a : ascii) : ascii :=
  let n := nat_of_ascii a in
  if (65 <=? n)%nat && (n <=? 90)%nat then ascii_of_nat (n + 32) else a.

(** [str.lower], on the ASCII letters. *)
Fixpoint lower (s : string) : string :=
  match s with
  | EmptyString => EmptyString
  | String a t => String (lower_ascii a) (lower t)
  end.

Definition is_space (a : ascii) : bool :=
  let n := nat_of_ascii a in
  ((9 <=? n)%nat && (n <=? 13)%nat) || ((28 <=? n)%nat && (n <=? 32)%nat).

Fixpoint lstrip (s : string) : string :=
  match s with
  | String a t => if is_space a then lstrip t else s
  | EmptyString => EmptyString
  end.

Fixpoint rstrip (s : string) : string :=
  match s with
  | EmptyString => EmptyString
  | String a t =>
      match rstrip t with
      | EmptyString => if is_space a then EmptyString else String a EmptyString
      | t' => String a t'
      end
  end.

(** [str.strip], on the ASCII white space. *)
Definition strip (s : string) : string := rstrip (lstrip s).

(** ** Numbers *)

(** [int(x)] on a float: truncation toward zero. *)
Definition trunc (q : Q) : Z := Z.quot (Qnum q) (Zpos (Qden q)).

Definition Qsum (l : list Q) : Q := foldr Qplus 0%Q l.

(** [mean] of a non-empty sequence of numbers. *)
Definition mean (l : list Q) : Q := (Qsum l / inject_Z (Z.of_nat (length l)))%Q.

(** Round half to even, to the nearest integer. *)
Definition rint (q : Q) : Z :=
  let f := Qfloor q in
  let d := (q - inject_Z f)%Q in
  match (d ?= 1 # 2)%Q with
  | Lt => f
  | Gt => (f + 1)%Z
  | Eq => if Z.even f then f else (f + 1)%Z
  end.

(** [round(x, 1)]. *)
Definition round1 (q : Q) : Q := (inject_Z (rint (q * 10)) / 10)%Q.

(** ** The library interface *)

Record PyLib := {
  (** [pd.to_numeric] on a text *)
  to_numeric_str : string → option Q;
  (** [float(s)] on a text *)
  py_float : string → option Q;
  (** [int(s)] on a text *)
  py_int : string → option Z;
  (** [str(x)] on a number *)
  str_num : Q → string;
  (** [re.compile(pat, re.IGNORECASE)], as the test [search(s) is not None];
      [None] when the pattern does not compile *)
  re_compile : string → option (string → bool);
}.

Section Model.

Context (lib : PyLib).

(** [str(x)] on a cell ([NaN] prints as [nan]). *)
Definition py_str (c : cell) : string :=
  match c with
  | NA => "nan"
  | Num q => str_num lib q
  | Str s => s
  end.

(** [pd.to_numeric(x, errors='coerce')] on a scalar; [None] is [NaN]. *)
Definition to_numeric (c : cell) : option Q :=
  match c with
  | NA => None
  | Num q => Some q
  | Str s => to_numeric_str lib s
  end.

(** [float(x)]; [None] when it raises. *)
Definition float_of (c : cell) : option Q :=
  match c with
  | NA => None
  | Num q => Some q
  | Str s => py_float lib s
  end.

(** A numeric result as a cell. *)
Definition num_cell (o : option Q) : cell :=
  match o with
  | Some q => Num q
  | None => NA
  end.

(** [Series.fillna(0)] on one numeric value. *)
Definition fillna0 (o : option Q) : Q := default 0%Q o.

(** ** Rows and frames *)

(** [row.get(key)]: [None] (missing, hence NA) for an absent label. *)
Definition row_get (r : Row) (key : string) : cell := default NA (r !! key).

(** [row.get(key, dflt)]. *)
Definition row_get_default (r : Row) (key : string) (dflt : cell) : cell :=
  default dflt (r !! key).

(** [row[key]]. *)
Definition row_item (r : Row) (key : string) : Result cell :=
  match r !! key with
  | Some c => Ok c
  | None => Raise (KeyError key)
  end.

Record DataFrame := {
  columns : list string;
  rows : list Row;
}.

Definition has_column (df : DataFrame) (c : string) : bool :=
  bool_decide (c ∈ columns df).

(** [df[c]] as a Series. *)
Definition column (df : DataFrame) (c : string) : Result (list cell) :=
  if has_column df c then Ok (map (λ r, row_get r c) (rows df))
  else Raise (KeyError c).

(** [df[mask]] as built from a row predicate. *)
Definition select (p : Row → bool) (df : DataFrame) : DataFrame :=
  {| columns := columns df; rows := filter (λ r, p r = true) (rows df) |}.

(** [df[c] = values]: every row gets its value; the label is appended
    when new. *)
Definition add_label (c : string) (cs : list string) : list string :=
  if bool_decide (c ∈ cs) then cs else cs ++ [c].

Definition assign (c : string) (f : Row → cell) (df : DataFrame) : DataFrame :=
  {| columns := add_label c (columns df);
     rows := map (λ r, <[c := f r]> r) (rows df) |}.

(** ** The derived health points (lines 89-97) *)

(** The lambda applied to each row. *)
Definition hp_lambda (r : Row) : option Q :=
  if notna (row_get r "dlcClear") && negb (cell_eq_str (row_get r "dlcClear") "-")
  then to_numeric (row_get r "dlcClear")
  else to_numeric (row_get r "Health").

(** The value of [HP] after [fillna(0)]. *)
Definition derive_hp (r : Row) : Q := fillna0 (hp_lambda r).

(** ** Ingestion of one level (lines 65-122) *)

(** What [pd.read_excel(..., header=h, dtype=object)] hands back: the
    labels found on the header row, as objects, and the rows below it. *)
Record RawFrame := {
  raw_labels : list cell;
  raw_rows : list (list cell);
}.

(** The workbook: reading a sheet with a header row gives a frame or
    raises. *)
Definition Workbook := string → nat → Result RawFrame.

(** [tmp.columns = [str(c).strip() for c in tmp.columns]].  The labels of
    a sheet are taken to stay distinct after trimming; were two to
    collide, this model keeps the cells of the first. *)
Definition normalize_columns (raw : RawFrame) : DataFrame :=
  let names := map (λ c, strip (py_str c)) (raw_labels raw) in
  {| columns := names;
     rows := map (λ cells, list_to_map (zip names cells)) (raw_rows raw) |}.

Inductive diag :=
  | UsingHeaderRow (ng : string) (header_row : nat)
  | NoNameColumn (ng : string)
  | LevelLoaded (ng : string) (count : nat)
  | CacheLoaded
  | CacheLoadFailed
  | DataFileMissing
  | CacheSaved
  | CacheSaveFailed.

(** The inner loop over the header-row candidates: the first candidate
    that reads and has a [Name] column, with the row it was found on. *)
Fixpoint find_header (wb : Workbook) (ng : string) (candidates : list nat)
  : option (nat * DataFrame) :=
  match candidates with
  | [] => None
  | header_row :: rest =>
      match wb ng header_row with
      | Raise _ => find_header wb ng rest
      | Ok raw =>
          let tmp := normalize_columns raw in
          if has_column tmp "Name" then Some (header_row, tmp)
          else find_header wb ng rest
      end
  end.

Definition header_rows : list nat := [1; 0; 2]%nat.

Definition numeric_cols : list string :=
  [ "Phys"; "Strike"; "Slash"; "Pierce"; "Magic"; "Fire"; "Ltng"; "Holy";
    "Phys.1"; "Strike.1"; "Slash.1"; "Pierce.1"; "Magic.1"; "Fire.1";
    "Ltng.1"; "Holy.1";
    "Base"; "Effective"; "Regen Delay";
    "Bleed.1"; "Frost.1"; "HP Burn Effect" ].

(** [df[col] = pd.to_numeric(df[col], errors='coerce').fillna(0)]. *)
Definition coerce_cell (c : cell) : cell := Num (fillna0 (to_numeric c)).

Definition coerce_column (df : DataFrame) (col : string) : DataFrame :=
  if has_column df col then assign col (λ r, coerce_cell (row_get r col)) df
  else df.

(** [df['ID'] = range(1, len(df) + 1)]. *)
Definition number_rows (df : DataFrame) : DataFrame :=
  {| columns := add_label "ID" (columns df);
     rows := imap (λ i r, <["ID" := Num (inject_Z (Z.of_nat (S i)))]> r)
                  (rows df) |}.

Definition ensure_id (df : DataFrame) : DataFrame :=
  if has_column df "ID" then df else number_rows df.

(** Lines 85-97: the rows without a name and the placeholder rows are
    dropped, and [HP] is derived. *)
Definition with_hp (df : DataFrame) : DataFrame :=
  let df := select (λ r, notna (row_get r "Name")) df in
  let df := select (λ r, negb (cell_eq_str (row_get r "Name") "???")) df in
  assign "HP" (λ r, Num (derive_hp r)) df.

(** Lines 85-116, from the accepted frame to the frame stored for the
    level. *)
Definition process_level (df : DataFrame) : DataFrame :=
  ensure_id (foldl coerce_column (with_hp df) numeric_cols).

(** ** The process state *)

(** A pickle file: what was dumped, or bytes that do not load. *)
Inductive artifact (A : Type) :=
  | Pickled (a : A)
  | Corrupt.
Arguments Pickled {A} a.
Arguments Corrupt {A}.

Definition pickle_load {A} (f : artifact A) : Result A :=
  match f with
  | Pickled a => Ok a
  | Corrupt => Raise UnpicklingError
  end.

Record World := {
  (** the globals *)
  elden_data : gmap string DataFrame;
  ai_cache : gmap string string;
  (** the files under [CACHE_DIR] *)
  CACHE_FILE : option (artifact (gmap string DataFrame));
  DATA_FILE : option Workbook;
  AI_CACHE_FILE : option (artifact (gmap string string));
  (** whether opening a file of [CACHE_DIR] for writing succeeds *)
  writable : bool;
  (** what was printed by the loader *)
  log : list diag;
  (** the prompts sent to the reasoning service, oldest first *)
  sent : list string;
}.

Definition set_elden_data (d : gmap string DataFrame) (w : World) : World :=
  {| elden_data := d; ai_cache := ai_cache w; CACHE_FILE := CACHE_FILE w;
     DATA_FILE := DATA_FILE w; AI_CACHE_FILE := AI_CACHE_FILE w;
     writable := writable w; log := log w; sent := sent w |}.

Definition set_ai_cache (c : gmap string string) (w : World) : World :=
  {| elden_data := elden_data w; ai_cache := c; CACHE_FILE := CACHE_FILE w;
     DATA_FILE := DATA_FILE w; AI_CACHE_FILE := AI_CACHE_FILE w;
     writable := writable w; log := log w; sent := sent w |}.

Definition set_CACHE_FILE (f : option (artifact (gmap string DataFrame)))
    (w : World) : World :=
  {| elden_data := elden_data w; ai_cache := ai_cache w; CACHE_FILE := f;
     DATA_FILE := DATA_FILE w; AI_CACHE_FILE := AI_CACHE_FILE w;
     writable := writable w; log := log w; sent := sent w |}.

Definition set_AI_CACHE_FILE (f : option (artifact (gmap string string)))
    (w : World) : World :=
  {| elden_data := elden_data w; ai_cache := ai_cache w;
     CACHE_FILE := CACHE_FILE w; DATA_FILE := DATA_FILE w; AI_CACHE_FILE := f;
     writable := writable w; log := log w; sent := sent w |}.

Definition print (d : diag) (w : World) : World :=
  {| elden_data := elden_data w; ai_cache := ai_cache w;
     CACHE_FILE := CACHE_FILE w; DATA_FILE := DATA_FILE w;
     AI_CACHE_FILE := AI_CACHE_FILE w; writable := writable w;
     log := log w ++ [d]; sent := sent w |}.

Definition record_call (prompt : string) (w : World) : World :=
  {| elden_data := elden_data w; ai_cache := ai_cache w;
     CACHE_FILE := CACHE_FILE w; DATA_FILE := DATA_FILE w;
     AI_CACHE_FILE := AI_CACHE_FILE w; writable := writable w;
     log := log w; sent := sent w ++ [prompt] |}.

(** ** The loader (lines 35-134) *)

Definition ng_levels : list string :=
  ["NG"; "NG+"; "NG+2"; "NG+3"; "NG+4"; "NG+5"; "NG+6"; "NG+7"].

(** One turn of the loop over the levels. *)
Definition load_level (wb : Workbook) (w : World) (ng : string) : World :=
  match find_header wb ng header_rows with
  | None => print (NoNameColumn ng) w
  | Some (header_row, df) =>
      let w := if bool_decide (header_row = 0%nat) then w
               else print (UsingHeaderRow ng header_row) w in
      let df := process_level df in
      print (LevelLoaded ng (length (rows df)))
            (set_elden_data (<[ng := df]> (elden_data w)) w)
  end.

(** Lines 124-132: the dump of a non-empty dataset. *)
Definition save_cache (w : World) : World :=
  if bool_decide (elden_data w = ∅) then w
  else if writable w
       then print CacheSaved (set_CACHE_FILE (Some (Pickled (elden_data w))) w)
       else print CacheSaveFailed w.

(** Lines 54-134: the load from the workbook. *)
Definition load_from_excel (w : World) : World :=
  match DATA_FILE w with
  | None => print DataFileMissing w
  | Some wb => save_cache (foldl (load_level wb) w ng_levels)
  end.

Definition load_elden_ring_data (force_reload : bool) (w : World) : World :=
  match (if force_reload then None else CACHE_FILE w) with
  | Some f =>
      match pickle_load f with
      | Ok d => print CacheLoaded (set_elden_data d w)
      | Raise _ => load_from_excel (print CacheLoadFailed w)
      end
  | None => load_from_excel w
  end.

(** ** Text search on a column *)

Definition is_Str (c : cell) : bool :=
  match c with Str _ => true | _ => false end.

(** The [.str] accessor of an object column is refused when the column
    holds values and none of them is a text. *)
Definition str_accessor (col : list cell) : Result unit :=
  if existsb is_Str col || forallb isna col then Ok ()
  else Raise AttributeError.

(** [col.str.contains(pat, case=False, na=False)]: the pattern is
    compiled as a regular expression; a cell that is not a text gives
    [False]. *)
Definition str_contains (pat : string) (col : list cell) : Result (list bool) :=
  _ ← str_accessor col;
  match re_compile lib pat with
  | None => Raise ReError
  | Some found =>
      Ok (map (λ c, match c with Str s => found s | _ => false end) col)
  end.

(** [df[mask]] for a positional boolean mask. *)
Definition select_mask (mask : list bool) (df : DataFrame) : DataFrame :=
  {| columns := columns df;
     rows := map snd (filter (λ p, p.1 = true) (zip mask (rows df))) |}.

(** ** Name search (lines 157-178) *)

Record EnemyHit := {
  hit_name : cell;
  hit_location : cell;
  hit_hp : Z;
  hit_id : cell;
}.

Definition Qpositive (q : Q) : bool := negb (Qle_bool q 0).

(** [int(row['HP']) if pd.notna(row['HP']) and row['HP'] > 0 else 0]. *)
Definition hit_hp_of (c : cell) : Result Z :=
  match c with
  | NA => Ok 0%Z
  | Num q => Ok (if Qpositive q then trunc q else 0%Z)
  | Str _ => Raise TypeError
  end.

Definition enemy_hit (row : Row) : Result EnemyHit :=
  n ← row_item row "Name";
  l ← row_item row "Location";
  h ← row_item row "HP";
  hp ← hit_hp_of h;
  i ← row_item row "ID";
  Ok {| hit_name := n; hit_location := l; hit_hp := hp; hit_id := i |}.

Definition search_enemies (w : World) (query ng_level : string)
  : Result (list EnemyHit) :=
  match elden_data w !! ng_level with
  | None => Ok []
  | Some df =>
      names ← column df "Name";
      mask ← str_contains query names;
      let results := select_mask mask df in
      mapM enemy_hit (rows results)
  end.

(** ** Sentinel parsers (lines 203-217 and 268-288) *)

Definition safe_int (value : cell) (dflt : Z) : Z :=
  if isna value || cell_eq_str value "-" then dflt
  else match float_of value with
       | Some q => trunc q
       | None => dflt
       end.

Definition safe_float (value : cell) (dflt : Q) : Q :=
  if isna value || cell_eq_str value "-" then dflt
  else match float_of value with
       | Some q => q
       | None => dflt
       end.

(** [int(x)]; [None] when it raises. *)
Definition int_of (c : cell) : option Z :=
  match c with
  | NA => None
  | Num q => Some (trunc q)
  | Str s => py_int lib s
  end.

Inductive resistance :=
  | Immune
  | Resist (n : Z).

Definition _format_resistance (value : cell) : resistance :=
  if isna value then Resist 999999
  else if bool_decide (lower (py_str value) = "immune") then Immune
  else match int_of value with
       | Some n => Resist n
       | None => Resist 999999
       end.

Definition _parse_poise (value : cell) : Z :=
  if isna value then 0%Z
  else if bool_decide (py_str value = "∞")
          || bool_decide (lower (py_str value) = "inf") then 999999%Z
  else match float_of value with
       | Some q => trunc q
       | None => 0%Z
       end.

(** ** Details of one enemy (lines 180-266) *)

Record DamageNegation := {
  dn_physical : Q; dn_strike : Q; dn_slash : Q; dn_pierce : Q;
  dn_magic : Q; dn_fire : Q; dn_lightning : Q; dn_holy : Q;
}.

Record Resistances := {
  res_poison : resistance; res_scarlet_rot : resistance;
  res_bleed : resistance; res_frost : resistance; res_sleep : resistance;
  res_madness : resistance; res_deathblight : resistance;
}.

Record Poise := {
  poise_base : Z;
  poise_effective : Z;
  poise_regen_delay : Q;
}.

Record StatusMultipliers := {
  sm_bleed : Q;
  sm_frost : Q;
  sm_black_flame : Q;
}.

Record EnemyInstance := {
  inst_location : cell;
  inst_hp : Z;
}.

Record Details := {
  name : cell;
  location : cell;
  hp : Z;
  damage_negation : DamageNegation;
  resistances : Resistances;
  poise : Poise;
  status_multipliers : StatusMultipliers;
  has_weak_spots : bool;
  all_instances : list EnemyInstance;
}.

Definition enemy_instance (instance : Row) : Result EnemyInstance :=
  h ← row_item instance "HP";
  Ok {| inst_location := row_get_default instance "Location" (Str "Unknown");
        inst_hp := safe_int h 0 |}.

(** The dictionary built from the canonical row, [all_instances] set
    apart. *)
Definition enemy_details (enemy : Row) (instances : list EnemyInstance)
  : Result Details :=
  n ← row_item enemy "Name";
  h ← row_item enemy "HP";
  let num key dflt := safe_float (row_get_default enemy key (Num dflt)) 0 in
  let res key := _format_resistance (row_get_default enemy key (Num 999999)) in
  Ok {| name := n;
        location := row_get_default enemy "Location" (Str "Unknown");
        hp := safe_int h 0;
        damage_negation :=
          {| dn_physical := num "Phys.1" 0%Q; dn_strike := num "Strike.1" 0%Q;
             dn_slash := num "Slash.1" 0%Q; dn_pierce := num "Pierce.1" 0%Q;
             dn_magic := num "Magic.1" 0%Q; dn_fire := num "Fire.1" 0%Q;
             dn_lightning := num "Ltng.1" 0%Q; dn_holy := num "Holy.1" 0%Q |};
        resistances :=
          {| res_poison := res "Poison"; res_scarlet_rot := res "Scarlet Rot";
             res_bleed := res "Bleed"; res_frost := res "Frost";
             res_sleep := res "Sleep"; res_madness := res "Madness";
             res_deathblight := res "Deathblight" |};
        poise :=
          {| poise_base := safe_int (row_get_default enemy "Base" (Num 0)) 0;
             poise_effective :=
               _parse_poise (row_get_default enemy "Effective" (Num 0));
             poise_regen_delay := num "Regen Delay" 0%Q |};
        status_multipliers :=
          {| sm_bleed := num "Bleed.1" 1%Q; sm_frost := num "Frost.1" 1%Q;
             sm_black_flame := num "HP Burn Effect" 1%Q |};
        has_weak_spots :=
          negb (safe_int (row_get_default enemy "Weak Part" (Num 0)) 0 =? 0)%Z;
        all_instances := instances |}.

(** [details['all_instances'].append(...)], for each instance in turn. *)
Definition append_instances (d : Details) (l : list EnemyInstance) : Details :=
  {| name := name d; location := location d; hp := hp d;
     damage_negation := damage_negation d; resistances := resistances d;
     poise := poise d; status_multipliers := status_multipliers d;
     has_weak_spots := has_weak_spots d;
     all_instances := all_instances d ++ l |}.

(** [df[df[col] == text]]. *)
Definition where_eq (df : DataFrame) (col text : string) : Result DataFrame :=
  values ← column df col;
  Ok (select_mask (map (λ c, cell_eq_str c text) values) df).

(** [if location and len(matches) > 0: ...]: an absent or empty location
    does not filter. *)
Definition narrow (matches : DataFrame) (location : option string)
  : Result DataFrame :=
  match location with
  | Some loc =>
      if negb (bool_decide (loc = "")) && negb (bool_decide (rows matches = []))
      then
        location_matches ← where_eq matches "Location" loc;
        Ok (if bool_decide (rows location_matches = []) then matches
            else location_matches)
      else Ok matches
  | None => Ok matches
  end.

Definition get_enemy_details (w : World) (enemy_name : string)
    (location : option string) (ng_level : string) : Result (option Details) :=
  match elden_data w !! ng_level with
  | None => Ok None
  | Some df =>
      matches ← where_eq df "Name" enemy_name;
      matches ← narrow matches location;
      match rows matches with
      | [] => Ok None
      | enemy :: _ =>
          details ← enemy_details enemy [];
          all_enemy_instances ← where_eq df "Name" enemy_name;
          instances ← mapM enemy_instance (rows all_enemy_instances);
          Ok (Some (append_instances details instances))
      end
  end.

(** ** Region search (lines 290-308) *)




(** ** Region averages (lines 310-380) *)

(** The value a cell adds to the list averaged by [avg_resistance]:
    none for a missing cell, an immune one or one [float] refuses. *)
Definition resistance_value (val : cell) : option Q :=
  if isna val || bool_decide (lower (strip (py_str val)) = "immune") then None
  else float_of val.

Definition avg_resistance (region_df : DataFrame) (column_name : string)
  : Result (option Z) :=
  col ← column region_df column_name;
  let values := omap resistance_value col in
  Ok (match values with
      | [] => None
      | _ => Some (trunc (mean values))
      end).

Definition safe_avg (region_df : DataFrame) (col_name : string) : Q :=
  if has_column region_df col_name then
    let numeric_vals :=
      omap (λ r, to_numeric (row_get r col_name)) (rows region_df) in
    match numeric_vals with
    | [] => 0%Q
    | _ => round1 (mean numeric_vals)
    end
  else 0%Q.

(** [Series.mean] on the [HP] column: missing values are skipped, a text
    is refused. *)
Definition number_of (c : cell) : Result (option Q) :=
  match c with
  | NA => Ok None
  | Num q => Ok (Some q)
  | Str _ => Raise TypeError
  end.

Definition series_mean (col : list cell) : Result Q :=
  values ← mapM number_of col;
  Ok (mean (omap id values)).

(** [int(region_df['HP'].mean()) if region_df['HP'].notna().any() else 0]. *)
Definition avg_hp_of (region_df : DataFrame) : Result Z :=
  col ← column region_df "HP";
  if existsb notna col then
    m ← series_mean col;
    Ok (trunc m)
  else Ok 0%Z.

Record AvgResistances := {
  avg_poison : option Z; avg_scarlet_rot : option Z; avg_bleed : option Z;
  avg_frost : option Z; avg_sleep : option Z; avg_madness : option Z;
  avg_deathblight : option Z;
}.

Record AvgPoise := {
  avg_base : Q;
  avg_effective : Q;
  avg_regen_delay : Q;
}.

Record RegionStats := {
  region : string;
  enemy_count : nat;
  avg_hp : Z;
  avg_damage_negation : DamageNegation;
  avg_resistances : AvgResistances;
  avg_poise : AvgPoise;
  avg_status_multipliers : StatusMultipliers;
}.

(** The dictionary of averages over the frame of a region. *)
Definition region_stats (region_name : string) (region_df : DataFrame)
  : Result RegionStats :=
  h ← avg_hp_of region_df;
  r1 ← avg_resistance region_df "Poison";
  r2 ← avg_resistance region_df "Scarlet Rot";
  r3 ← avg_resistance region_df "Bleed";
  r4 ← avg_resistance region_df "Frost";
  r5 ← avg_resistance region_df "Sleep";
  r6 ← avg_resistance region_df "Madness";
  r7 ← avg_resistance region_df "Deathblight";
  Ok {| region := region_name;
        enemy_count := length (rows region_df);
        avg_hp := h;
        avg_damage_negation :=
          {| dn_physical := safe_avg region_df "Phys.1";
             dn_strike := safe_avg region_df "Strike.1";
             dn_slash := safe_avg region_df "Slash.1";
             dn_pierce := safe_avg region_df "Pierce.1";
             dn_magic := safe_avg region_df "Magic.1";
             dn_fire := safe_avg region_df "Fire.1";
             dn_lightning := safe_avg region_df "Ltng.1";
             dn_holy := safe_avg region_df "Holy.1" |};
        avg_resistances :=
          {| avg_poison := r1; avg_scarlet_rot := r2; avg_bleed := r3;
             avg_frost := r4; avg_sleep := r5; avg_madness := r6;
             avg_deathblight := r7 |};
        avg_poise :=
          {| avg_base := safe_avg region_df "Base";
             avg_effective := safe_avg region_df "Effective";
             avg_regen_delay := safe_avg region_df "Regen Delay" |};
        avg_status_multipliers :=
          {| sm_bleed := safe_avg region_df "Bleed.1";
             sm_frost := safe_avg region_df "Frost.1";
             sm_black_flame := safe_avg region_df "HP Burn Effect" |} |}.

(** The frame of the records whose location contains the region. *)
Definition region_frame (df : DataFrame) (region_name : string)
  : Result DataFrame :=
  locations ← column df "Location";
  mask ← str_contains region_name locations;
  Ok (select_mask mask df).

Definition calculate_region_average (w : World) (region_name ng_level : string)
  : Result (option RegionStats) :=
  match elden_data w !! ng_level with
  | None => Ok None
  | Some df =>
      region_df ← region_frame df region_name;
      match rows region_df with
      | [] => Ok None
      | _ => stats ← region_stats region_name region_df; Ok (Some stats)
      end
  end.

(** ** The advisory cache (lines 136-155, 442-535 and 734-758) *)

Inductive subject :=
  | EnemySubject (d : Details)
  | RegionSubject (r : RegionStats).

(** The reasoning service and the prompt written for it.  The service
    answers from the prompts it was sent before and the new one, with a
    text or by raising. *)
Record Advisor := {
  prompt_for : subject → string;
  claude : list string → string → Result string;
}.

Context (advisor : Advisor).

Definition enemy_key (enemy_name location_text : string) : string :=
  "enemy_" ++ enemy_name ++ "_" ++ location_text.

Definition cache_key (s : subject) : string :=
  match s with
  | EnemySubject d => enemy_key (py_str (name d)) (py_str (location d))
  | RegionSubject r => "region_" ++ region r
  end.

Definition fallback : string :=
  "Strategy analysis unavailable. Check enemy weaknesses in the stats.".

Definition load_ai_cache (w : World) : gmap string string :=
  match AI_CACHE_FILE w with
  | Some f =>
      match pickle_load f with
      | Ok cache => cache
      | Raise _ => ∅
      end
  | None => ∅
  end.

Definition save_ai_cache (cache : gmap string string) (w : World) : World :=
  if writable w then set_AI_CACHE_FILE (Some (Pickled cache)) w else w.

Definition analyze_with_ai (s : subject) (w : World) : string * World :=
  let key := cache_key s in
  match ai_cache w !! key with
  | Some text => (text, w)
  | None =>
      let prompt := prompt_for advisor s in
      let w' := record_call prompt w in
      match claude advisor (sent w) prompt with
      | Ok response_text =>
          let w' := set_ai_cache (<[key := response_text]> (ai_cache w')) w' in
          (response_text, save_ai_cache (ai_cache w') w')
      | Raise _ => (fallback, w')
      end
  end.

Inductive update_reply :=
  | Updated (key : string)
  | MissingField.

Definition admin_key (enemy_name : string) : string := "enemy_" ++ enemy_name.

Definition falsy (o : option string) : bool :=
  match o with
  | None => true
  | Some s => bool_decide (s = "")
  end.

(** The admin update of one entry; the two fields are those of the posted
    document. *)
Definition update_ai_cache (enemy_name new_strategy : option string)
    (w : World) : update_reply * World :=
  match enemy_name, new_strategy with
  | Some n, Some text =>
      if falsy enemy_name || falsy new_strategy then (MissingField, w)
      else
        let key := admin_key n in
        let w' := set_ai_cache (<[key := text]> (ai_cache w)) w in
        (Updated key, save_ai_cache (ai_cache w') w')
  | _, _ => (MissingField, w)
  end.

End Model.

Arguments Pickled {A} a.
Arguments Corrupt {A}.

(** ** An instance of the library interface

    For evaluating the model on examples: numbers written as decimal
    literals, numbers printed in decimal, and patterns without
    metacharacters, which [re] searches as literals with the case folded.
    A pattern with a metacharacter is outside this fragment and the
    instance refuses it, as [re] refuses [(]. *)

Definition digit_of (a : ascii) : option Z :=
  let n := nat_of_ascii a in
  if (48 <=? n)%nat && (n <=? 57)%nat then Some (Z.of_nat (n - 48)) else None.

Fixpoint digits (s : string) (acc : Z) : option Z :=
  match s with
  | EmptyString => Some acc
  | String a t =>
      match digit_of a with
      | Some d => digits t (10 * acc + d)
      | None => None
      end
  end.

Definition unsigned_literal (s : string) : option Z :=
  match s with
  | EmptyString => None
  | _ => digits s 0
  end.

Definition int_literal (s : string) : option Z :=
  match s with
  | String "-" t => Z.opp <$> unsigned_literal t
  | String "+" t => unsigned_literal t
  | _ => unsigned_literal s
  end.

(** Digits, or digits with a fraction. *)
Definition unsigned_decimal (s : string) : option Q :=
  match index 0 "." s with
  | None => inject_Z <$> unsigned_literal s
  | Some i =>
      let frac := substring (S i) (String.length s - S i) s in
      n ← unsigned_literal (substring 0 i s);
      f ← unsigned_literal frac;
      Some (inject_Z n + inject_Z f / inject_Z (10 ^ Z.of_nat (String.length frac)))%Q
  end.

Definition decimal_literal (s : string) : option Q :=
  match s with
  | String "-" t => Qopp <$> unsigned_decimal t
  | String "+" t => unsigned_decimal t
  | _ => unsigned_decimal s
  end.

Fixpoint print_digits (fuel : nat) (n : Z) (acc : string) : string :=
  match fuel with
  | O => acc
  | S fuel =>
      let acc := String (ascii_of_nat (48 + Z.to_nat (n mod 10))) acc in
      if (n <? 10)%Z then acc else print_digits fuel (n / 10) acc
  end.

Definition print_Z (z : Z) : string :=
  let body := print_digits (S (Z.to_nat (Z.log2 (Z.abs z)))) (Z.abs z) "" in
  if (z <? 0)%Z then String "-" body else body.

(** The decimals of [n / d] below the point, for [n < d]. *)
Fixpoint print_decimals (fuel : nat) (n d : Z) : string :=
  match fuel with
  | O => EmptyString
  | S fuel =>
      if (n =? 0)%Z then EmptyString
      else String (ascii_of_nat (48 + Z.to_nat (10 * n / d)))
                  (print_decimals fuel ((10 * n) mod d) d)
  end.

(** A whole number as Python prints an [int], another with its decimals
    (seventeen at most). *)
Definition print_number (q : Q) : string :=
  let n := Z.abs (Qnum q) in
  let d := Zpos (Qden q) in
  let whole := print_Z (n / d) in
  let body := if (n mod d =? 0)%Z then whole
              else whole ++ "." ++ print_decimals 17 (n mod d) d in
  if (Qnum q <? 0)%Z then String "-" body else body.

Definition is_meta (a : ascii) : bool :=
  bool_decide (a ∈ list_ascii_of_string ".^$*+?{}[]\|()").

Fixpoint has_meta (s : string) : bool :=
  match s with
  | EmptyString => false
  | String a t => is_meta a || has_meta t
  end.

Definition contains_folded (pat s : string) : bool :=
  match index 0 (lower pat) (lower s) with
  | Some _ => true
  | None => false
  end.

Definition literal_search (pat : string) : option (string → bool) :=
  if has_meta pat then None else Some (contains_folded pat).

Definition example_lib : PyLib :=
  {| to_numeric_str s := decimal_literal (strip s);
     py_float s := decimal_literal (strip s);
     py_int s := int_literal (strip s);
     str_num := print_number;
     re_compile := literal_search |}.

(** ** What the queries need of a level

    The loader asks a sheet for its [Name] column only; the queries read
    more.  [query_ready] holds of a frame that has the columns they index
    without a test, with a cell for the four they read row by row, texts
    for names and locations and numbers for health points. *)






(** A condition on the frame of a level; a level that is not loaded
    meets it. *)
Definition level_ready (ready : DataFrame → bool) (w : World)
    (ng_level : string) : bool :=
  match elden_data w !! ng_level with
  | Some df => ready df
  | None => true
  end.

(** What the details lookup needs: the two columns it compares and a
    health cell in every row. *)
Definition details_ready (df : DataFrame) : bool :=
  has_column df "Name" && has_column df "Location"
  && forallb (λ r, bool_decide (is_Some (r !! "HP"))) (rows df).

(** ** The claims in the words of the specification *)

(** The records of a level, none when the level is not loaded. *)
Definition level_rows (w : World) (ng_level : string) : list Row :=
  match elden_data w !! ng_level with
  | Some df => rows df
  | None => []
  end.

(** Exact match of a text column. *)
Definition cell_is (col text : string) (r : Row) : bool :=
  cell_eq_str (row_get r col) text.

(** Every record holds a number under the label. *)
Definition numeric_at (c : string) (d : DataFrame) : Prop :=
  ∀ r, r ∈ rows d → ∃ q, r !! c = Some (Num q).

(** The exact-name matches of a level, in the order of the sheet. *)
Definition name_matches (w : World) (ng_level enemy_name : string) : list Row :=
  filter (λ r, cell_is "Name" enemy_name r = true) (level_rows w ng_level).

(** The matches kept for the canonical instance: those at the location
    when one is supplied and some match is there, all of them otherwise. *)
Definition narrowed (matches : list Row) (location : option string) : list Row :=
  match location with
  | None | Some "" => matches
  | Some loc =>
      match filter (λ r, cell_is "Location" loc r = true) matches with
      | [] => matches
      | at_location => at_location
      end
  end.

(** A record as an instance: its location and health points. *)
Definition instance_of (lib : PyLib) (r : Row) : EnemyInstance :=
  {| inst_location := row_get_default r "Location" (Str "Unknown");
     inst_hp := safe_int lib (row_get r "HP") 0 |}.














(** ** Example data *)

Definition text_sheet (labels : list string) (body : list (list cell))
  : RawFrame :=
  {| raw_labels := map Str labels; raw_rows := body |}.

Definition fresh_world : World :=
  {| elden_data := ∅; ai_cache := ∅; CACHE_FILE := None; DATA_FILE := None;
     AI_CACHE_FILE := None; writable := true; log := []; sent := [] |}.

Definition with_workbook (wb : Workbook) : World :=
  {| elden_data := ∅; ai_cache := ∅; CACHE_FILE := None; DATA_FILE := Some wb;
     AI_CACHE_FILE := None; writable := true; log := []; sent := [] |}.

(** A row whose post-clear health is a note, not a number. *)
Definition noted_row : Row :=
  {[ "Name" := Str "Runebear"; "Health" := Num 1200; "dlcClear" := Str "TBD" ]}.



Definition stat_labels : list string :=
  [ "Name"; "Location"; "Health"; "Phys.1";
    "Poison"; "Scarlet Rot"; "Bleed"; "Frost"; "Sleep"; "Madness";
    "Deathblight" ].

(** Three records in Limgrave, one of them immune to bleed and with an
    unreadable physical negation, and a second Runebear in Caelid. *)
Definition stat_sheet : RawFrame :=
  text_sheet stat_labels
    [ [ Str "Runebear"; Str "Caelid"; Num 2400; Num 10;
        Num 250; Num 250; Num 250; Num 250; Num 500; NA; NA ];
      [ Str "Runebear"; Str "Limgrave"; Num 1200; Str "TBD";
        Num 250; Num 250; Str "Immune"; Num 250; Num 500; NA; NA ];
      [ Str "Godrick Soldier"; Str "Limgrave"; Num 300; Num 20;
        Num 150; Num 150; Num 200; Num 150; Num 300; NA; NA ];
      [ Str "Wolf"; Str "Limgrave"; Num 100; Num 10;
        Num 100; Num 100; Num 400; Num 100; Str "Immune"; NA; NA ] ].

Definition stat_workbook : Workbook := λ ng header_row,
  if bool_decide (ng = "NG") && bool_decide (header_row = 1%nat)
  then Ok stat_sheet else Raise ValueError.




(** The processes that loaded these workbooks at start-up. *)
Definition stat_world : World :=
  load_elden_ring_data example_lib false (with_workbook stat_workbook).



(** A reasoning service that answers its calls from a script, in turn,
    and raises once the script is over. *)
Definition scripted (answers : list (Result string)) : Advisor :=
  {| prompt_for s := "Analyze " ++ cache_key example_lib s;
     claude history _ := default (Raise ServiceError) (answers !! length history) |}.

(** The frame the loader stores for the sheet of statistics, and its
    second record. *)
Definition stat_frame : DataFrame :=
  process_level example_lib (normalize_columns example_lib stat_sheet).


Definition runebear_details : Details :=
  {| name := Str "Runebear"; location := Str "Limgrave"; hp := 1200;
     damage_negation :=
       {| dn_physical := 0; dn_strike := 0; dn_slash := 0; dn_pierce := 0;
          dn_magic := 0; dn_fire := 0; dn_lightning := 0; dn_holy := 0 |};
     resistances :=
       {| res_poison := Resist 250; res_scarlet_rot := Resist 250;
          res_bleed := Immune; res_frost := Resist 250;
          res_sleep := Resist 500; res_madness := Resist 999999;
          res_deathblight := Resist 999999 |};
     poise := {| poise_base := 0; poise_effective := 0; poise_regen_delay := 0 |};
     status_multipliers := {| sm_bleed := 1; sm_frost := 1; sm_black_flame := 1 |};
     has_weak_spots := false;
     all_instances :=
       [ {| inst_location := Str "Caelid"; inst_hp := 2400 |};
         {| inst_location := Str "Limgrave"; inst_hp := 1200 |} ] |}.

(** The same enemy as the subject of an advisory lookup. *)
Definition runebear : subject := EnemySubject runebear_details.

(** The process started again on the files another left. *)
Definition restarted (w : World) : World :=
  {| elden_data := ∅; ai_cache := ∅; CACHE_FILE := CACHE_FILE w;
     DATA_FILE := DATA_FILE w; AI_CACHE_FILE := AI_CACHE_FILE w;
     writable := writable w; log := []; sent := [] |}.

(** A process that holds no dataset while an older cache file exists. *)
Definition stale_world : World :=
  {| elden_data := ∅; ai_cache := ∅;
     CACHE_FILE := Some (Pickled {[ "NG" := stat_frame ]});
     DATA_FILE := None; AI_CACHE_FILE := None; writable := true;
     log := []; sent := [] |}.

(** ** The routes over the queries and the cache
       (lines 615-648 and 768-780) *)

(** [str.replace(' ', '+')]. *)
Fixpoint plus_for_space (s : string) : string :=
  match s with
  | EmptyString => EmptyString
  | String a t =>
      String (if Ascii.eqb a " " then "+"%char else a) (plus_for_space t)
  end.

Section Routes.

Context (lib : PyLib) (advisor : Advisor).

(** [api_get_enemy]: the details with the strategy, [None] for the 404
    answer; an exception of the lookup goes through. *)
Definition api_get_enemy (w : World) (enemy_name : string)
    (ng location : option string)
  : Result (option (Details * string)) * World :=
  let ng_level := plus_for_space (default "NG" ng) in
  match get_enemy_details lib w enemy_name location ng_level with
  | Raise e => (Raise e, w)
  | Ok None => (Ok None, w)
  | Ok (Some details) =>
      let answer := analyze_with_ai lib advisor (EnemySubject details) w in
      (Ok (Some (details, answer.1)), answer.2)
  end.

(** [api_get_region]. *)
Definition api_get_region (w : World) (region_name : string)
    (ng : option string)
  : Result (option (RegionStats * string)) * World :=
  let ng_level := plus_for_space (default "NG" ng) in
  match calculate_region_average lib w region_name ng_level with
  | Raise e => (Raise e, w)
  | Ok None => (Ok None, w)
  | Ok (Some avg_stats) =>
      let answer := analyze_with_ai lib advisor (RegionSubject avg_stats) w in
      (Ok (Some (avg_stats, answer.1)), answer.2)
  end.

(** [view_ai_cache]: the strategy stored under [enemy_] and the name,
    [None] for the 404 answer. *)
Definition view_ai_cache (w : World) (enemy_name : string) : option string :=
  ai_cache w !! ("enemy_" ++ enemy_name).

(** A request that reaches the advisory cache, and the process after a
    sequence of them. *)
Inductive request :=
  | Lookup (s : subject)
  | AdminUpdate (enemy_name new_strategy : option string).

Definition serve (w : World) (r : request) : World :=
  match r with
  | Lookup s => (analyze_with_ai lib advisor s w).2
  | AdminUpdate enemy_name new_strategy =>
      (update_ai_cache enemy_name new_strategy w).2
  end.

Definition serve_all (rs : list request) (w : World) : World :=
  foldl serve w rs.

(** Lines 783-786: the dataset is loaded, then the advisory cache. *)
Definition startup (w : World) : World :=
  let w := load_elden_ring_data lib false w in
  set_ai_cache (load_ai_cache w) w.

End Routes.

(** ** More of the program in the words of its reader *)

(** A row the loader keeps: it has a name, and not the placeholder. *)
Definition named (r : Row) : bool :=
  notna (row_get r "Name") && negb (cell_eq_str (row_get r "Name") "???").

Definition kept_rows (df : DataFrame) : list Row :=
  filter (λ r, named r = true) (rows df).

(** The coercion of one column, on one row of a frame with the labels
    [present]. *)
Definition coerce_row (lib : PyLib) (present : list string) (r : Row)
    (c : string) : Row :=
  if bool_decide (c ∈ present) then <[c := coerce_cell lib (row_get r c)]> r
  else r.

(** The labels under which the loader writes: the derived health, the
    numbering when the sheet has none, and the numeric columns the sheet
    has. *)
Definition written_by_loader (df : DataFrame) (c : string) : bool :=
  bool_decide (c = "HP")
  || (bool_decide (c = "ID") && negb (has_column df "ID"))
  || (bool_decide (c ∈ numeric_cols) && has_column df c).




(** No character of the text is white space. *)
Fixpoint spaceless (s : string) : bool :=
  match s with
  | EmptyString => true
  | String a t => negb (is_space a) && spaceless t
  end.

(** What a restart would load is what the process holds. *)
Definition mirrored (w : World) : Prop := load_ai_cache w = ai_cache w.

(** The request leaves the entry under the key alone. *)
Definition spares (key : string) (r : request) : Prop :=
  match r with
  | Lookup _ => True
  | AdminUpdate (Some n) _ => admin_key n ≠ key
  | AdminUpdate None _ => True
  end.

(** ** More example data *)

(** A sheet with an enemy that is never staggered. *)
Definition poise_sheet : RawFrame :=
  text_sheet
    [ "Name"; "Location"; "Health"; "Base"; "Effective"; "Bleed.1";
      "Poison"; "Scarlet Rot"; "Bleed"; "Frost"; "Sleep"; "Madness";
      "Deathblight" ]
    [ [ Str "Ancient Dragon"; Str "Crumbling Farum Azula"; Num 9000;
        Num 120; Str "∞"; Num (3 # 2);
        Str "Immune"; Str "Immune"; Num 500; Num 500; Str "Immune"; NA; NA ];
      [ Str "???"; NA; NA; NA; NA; NA; NA; NA; NA; NA; NA; NA; NA ];
      [ Str "Wolf"; Str "Limgrave"; Num 100; Num 30; Num 45; Str "x";
        Num 100; Num 100; Num 400; Num 100; Num 300; NA; NA ] ].

Definition poise_frame : DataFrame :=
  process_level example_lib (normalize_columns example_lib poise_sheet).

Definition dragon_row : Row := default ∅ (rows poise_frame !! 0%nat).


(** The hits of the search for [bear] in the level of statistics. *)
Definition caelid_hit : EnemyHit :=
  {| hit_name := Str "Runebear"; hit_location := Str "Caelid";
     hit_hp := 2400; hit_id := Num 1 |}.

Definition limgrave_hit : EnemyHit :=
  {| hit_name := Str "Runebear"; hit_location := Str "Limgrave";
     hit_hp := 1200; hit_id := Num 2 |}.

(** A process that holds one strategy, dumped to the cache file. *)
Definition advised_world : World :=
  {| elden_data := ∅;
     ai_cache := {[ "enemy_Runebear_Limgrave" := "Use fire." ]};
     CACHE_FILE := None; DATA_FILE := None;
     AI_CACHE_FILE := Some (Pickled {[ "enemy_Runebear_Limgrave" := "Use fire." ]});
     writable := true; log := []; sent := [] |}.

(** The Runebear of Caelid as the subject of a lookup. *)
Definition caelid_runebear : subject :=
  EnemySubject
    {| name := Str "Runebear"; location := Str "Caelid"; hp := 2400;
       damage_negation := damage_negation runebear_details;
       resistances := resistances runebear_details;
       poise := poise runebear_details;
       status_multipliers := status_multipliers runebear_details;
       has_weak_spots := false;
       all_instances := all_instances runebear_details |}.

Definition busy_day : list request :=
  [ Lookup runebear; AdminUpdate (Some "Runebear") (Some "Hit it.");
    Lookup caelid_runebear; AdminUpdate (Some "Wolf") None ].



(** A process that holds two levels with a Wolf in Limgrave. *)
Definition two_level_world : World :=
  {| elden_data := {[ "NG" := stat_frame; "NG+" := poise_frame ]};
     ai_cache := ∅; CACHE_FILE := None; DATA_FILE := None;
     AI_CACHE_FILE := None; writable := true; log := []; sent := [] |}.

(** * Properties *)

(** ** Results and masks *)

Lemma mapM_Ok {A B} (f : A → Result B) (g : A → B) (l : list A) :
  Forall (λ x, f x = Ok (g x)) l → mapM f l = Ok (map g l).
Proof.
  induction 1 as [|x l Hx _ IH]; simpl; [done|].
  rewrite Hx. simpl. rewrite IH. done.
Qed.



Lemma filter_mask {A} (h : A → bool) (l : list A) :
  map snd (filter (λ p : bool * A, p.1 = true) (zip (map h l) l))
  = filter (λ x, h x = true) l.
Proof.
  induction l as [|x l IH]; [done|].
  simpl. rewrite !filter_cons. simpl.
  destruct (h x) eqn:E; repeat case_decide; try done; simpl; by rewrite IH.
Qed.

Lemma select_mask_map (p : cell → bool) (c : string) (df : DataFrame) :
  select_mask (map p (map (λ r, row_get r c) (rows df))) df
  = select (λ r, p (row_get r c)) df.
Proof.
  unfold select_mask, select. f_equal.
  rewrite map_map. apply (filter_mask (λ r, p (row_get r c))).
Qed.

Lemma has_column_true (df : DataFrame) (c : string) :
  has_column df c = true ↔ c ∈ columns df.
Proof. unfold has_column. by rewrite bool_decide_eq_true. Qed.

Lemma where_eq_select (df : DataFrame) (col text : string) :
  has_column df col = true →
  where_eq df col text = Ok (select (cell_is col text) df).
Proof.
  intros H. unfold where_eq, column. rewrite H. simpl.
  by rewrite select_mask_map.
Qed.

(** ** Derived health points *)

Section Health.

Context (lib : PyLib).

(** A cell of [dlcClear] that is present decides alone: a text other
    than the dash that is no number gives 0, whatever [Health] holds. *)
Lemma derive_hp_text_dlcClear (r : Row) (s : string) :
  r !! "dlcClear" = Some (Str s) → s ≠ "-" → to_numeric_str lib s = None →
  derive_hp lib r = 0%Q.
Proof.
  intros Hr Hs Hn. unfold derive_hp, hp_lambda, row_get. rewrite Hr. simpl.
  rewrite bool_decide_eq_false_2 by done. simpl. by rewrite Hn.
Qed.

(** Without a usable [dlcClear] cell the health column is parsed. *)
Lemma derive_hp_health (r : Row) :
  isna (row_get r "dlcClear") = true ∨ row_get r "dlcClear" = Str "-" →
  derive_hp lib r = fillna0 (to_numeric lib (row_get r "Health")).
Proof.
  intros [H|H]; unfold derive_hp, hp_lambda, notna; rewrite H; done.
Qed.

End Health.

(** C1, at the failing input: the row has a readable [Health] of 1200 and
    a [dlcClear] cell holding a note; the code derives 0 health points,
    not the 1200 of the base column. *)
Theorem derive_hp_noted_row :
  to_numeric example_lib (row_get noted_row "dlcClear") = None ∧
  to_numeric example_lib (row_get noted_row "Health") = Some 1200%Q ∧
  derive_hp example_lib noted_row = 0%Q.
Proof. by vm_compute. Qed.

(** ** Header detection and the loop over the levels *)

Section Loader.

Context (lib : PyLib).











End Loader.



(** ** Details of an enemy *)

Section Details.

Context (lib : PyLib).

Lemma enemy_instance_ok (r : Row) :
  is_Some (r !! "HP") → enemy_instance lib r = Ok (instance_of lib r).
Proof.
  intros [c Hc]. unfold enemy_instance, instance_of, row_item, row_get.
  by rewrite Hc.
Qed.

Lemma enemy_details_returns (enemy : Row) (l : list EnemyInstance) :
  is_Some (enemy !! "Name") → is_Some (enemy !! "HP") →
  ∃ d, enemy_details lib enemy l = Ok d ∧ all_instances d = l.
Proof.
  intros [n Hn] [h Hh]. unfold enemy_details, row_item. rewrite Hn, Hh.
  eexists. split; reflexivity.
Qed.

Lemma enemy_details_append (enemy : Row) (l : list EnemyInstance) (d : Details) :
  enemy_details lib enemy [] = Ok d →
  enemy_details lib enemy l = Ok (append_instances d l).
Proof.
  unfold enemy_details, row_item.
  destruct (enemy !! "Name"); [|discriminate].
  destruct (enemy !! "HP"); [|discriminate].
  intros [= <-]. reflexivity.
Qed.

Lemma cell_is_Some (col text : string) (r : Row) :
  cell_is col text r = true → is_Some (r !! col).
Proof.
  unfold cell_is, row_get. destruct (r !! col); [by eexists|discriminate].
Qed.

Lemma narrow_narrowed (df : DataFrame) (p : Row → bool) (location : option string) :
  has_column df "Location" = true →
  ∃ m, narrow (select p df) location = Ok m ∧
       rows m = narrowed (rows (select p df)) location.
Proof.
  intros Hloc. unfold narrow, narrowed.
  destruct location as [loc|]; [|by eexists].
  destruct (decide (loc = "")) as [->|Hne]; [by eexists|].
  rewrite (bool_decide_eq_false_2 _ Hne).
  assert (match loc with "" => rows (select p df) | String _ _ =>
            match filter (λ r, cell_is "Location" loc r = true) (rows (select p df)) with
            | [] => rows (select p df) | r :: l => r :: l end end
          = match filter (λ r, cell_is "Location" loc r = true) (rows (select p df)) with
            | [] => rows (select p df) | r :: l => r :: l end) as ->
    by (destruct loc; done).
  case_bool_decide as Hm; simpl.
  - simpl in Hm. rewrite Hm. by eexists.
  - rewrite where_eq_select by done. simpl.
    case_bool_decide as Hl; eexists; (split; [done|]); simpl in *.
    + by rewrite Hl.
    + by destruct (filter _ (filter _ _)).
Qed.

Lemma get_enemy_details_narrowed (w : World) (enemy_name : string)
    (location : option string) (ng_level : string) :
  level_ready details_ready w ng_level = true →
  match narrowed (name_matches w ng_level enemy_name) location with
  | [] => name_matches w ng_level enemy_name = [] ∧
          get_enemy_details lib w enemy_name location ng_level = Ok None
  | enemy :: _ =>
      ∃ d, get_enemy_details lib w enemy_name location ng_level = Ok (Some d) ∧
           enemy_details lib enemy
             (map (instance_of lib) (name_matches w ng_level enemy_name)) = Ok d ∧
           all_instances d
             = map (instance_of lib) (name_matches w ng_level enemy_name)
  end ∧
  (get_enemy_details lib w enemy_name location ng_level = Ok None
   ↔ name_matches w ng_level enemy_name = []).
Proof.
  unfold level_ready, name_matches, level_rows, get_enemy_details.
  destruct (elden_data w !! ng_level) as [df|] eqn:Hdf; intros Hready.
  2:{ rewrite filter_nil. by destruct location as [[|]|]. }
  unfold details_ready in Hready.
  apply andb_prop in Hready as [Hcols Hhp]. apply andb_prop in Hcols as [Hn Hl].
  rewrite forallb_forall in Hhp.
  rewrite where_eq_select by done. simpl.
  destruct (narrow_narrowed df (cell_is "Name" enemy_name) location Hl)
    as (m & -> & Hm). simpl. rewrite Hm. simpl in *.
  set (matches := filter (λ r, cell_is "Name" enemy_name r = true) (rows df)) in *.
  assert (Hsub : ∀ r, r ∈ narrowed matches location → r ∈ matches).
  { unfold narrowed. destruct location as [[|a loc]|]; try done.
    destruct (filter _ matches) as [|r0 l0] eqn:E; [done|].
    intros r Hr. rewrite <- E in Hr. by apply list_elem_of_filter in Hr as [_ ?]. }
  assert (Hnil : narrowed matches location = [] → matches = []).
  { unfold narrowed. destruct location as [[|a loc]|]; try done.
    by destruct (filter _ matches). }
  assert (Hinst : mapM (enemy_instance lib) matches
                  = Ok (map (instance_of lib) matches)).
  { apply mapM_Ok, Forall_forall. intros r Hr. apply enemy_instance_ok.
    apply list_elem_of_filter in Hr as [_ Hr].
    apply list_elem_of_In, Hhp in Hr. by apply bool_decide_eq_true in Hr. }
  destruct (narrowed matches location) as [|enemy rest] eqn:E.
  { rewrite (Hnil eq_refl). done. }
  assert (Hin : enemy ∈ matches) by (apply Hsub; left).
  pose proof Hin as Hin'.
  apply list_elem_of_filter in Hin' as [Hname Hrow].
  destruct (enemy_details_returns enemy [] (cell_is_Some _ _ _ Hname))
    as (d & Hd & Hd0).
  { apply list_elem_of_In, Hhp in Hrow. by apply bool_decide_eq_true in Hrow. }
  rewrite Hd. simpl. rewrite Hinst. simpl. split.
  - eexists. split; [done|]. split.
    + by apply enemy_details_append.
    + simpl. by rewrite Hd0.
  - split; [discriminate|]. intros Hm'. rewrite Hm' in Hin. by inversion Hin.
Qed.



End Details.


(** ** Regions *)

Section Regions.

Context (lib : PyLib).
















End Regions.

(** ** Coerced columns *)

Section Coercion.

Context (lib : PyLib).

Lemma add_label_present (c : string) (cs : list string) :
  c ∈ cs → add_label c cs = cs.
Proof. intros H. unfold add_label. by rewrite bool_decide_eq_true_2. Qed.

Lemma coerce_column_columns (d : DataFrame) (c : string) :
  columns (coerce_column lib d c) = columns d.
Proof.
  unfold coerce_column. destruct (has_column d c) eqn:E; [|done].
  simpl. apply add_label_present. by apply has_column_true.
Qed.

Lemma coerce_column_numeric (d : DataFrame) (c : string) :
  has_column d c = true → numeric_at c (coerce_column lib d c).
Proof.
  intros H r Hr. unfold coerce_column in Hr. rewrite H in Hr. simpl in Hr.
  apply list_elem_of_In, in_map_iff in Hr as (r0 & <- & _).
  eexists. by rewrite lookup_insert_eq.
Qed.

Lemma coerce_column_preserves (d : DataFrame) (c c' : string) :
  numeric_at c d → numeric_at c (coerce_column lib d c').
Proof.
  intros H r Hr. unfold coerce_column in Hr.
  destruct (has_column d c'); [|by apply H].
  simpl in Hr. apply list_elem_of_In, in_map_iff in Hr as (r0 & <- & Hr0).
  apply list_elem_of_In, H in Hr0 as [q Hq].
  destruct (decide (c' = c)) as [->|Hne].
  - rewrite lookup_insert_eq. eexists. reflexivity.
  - rewrite lookup_insert_ne by done. by eexists.
Qed.

Lemma coerce_columns_columns (cols : list string) (d : DataFrame) :
  columns (foldl (coerce_column lib) d cols) = columns d.
Proof.
  revert d. induction cols as [|x cols IH]; intros d; [done|].
  simpl. by rewrite IH, coerce_column_columns.
Qed.

Lemma coerce_columns_preserves (cols : list string) (d : DataFrame) (c : string) :
  numeric_at c d → numeric_at c (foldl (coerce_column lib) d cols).
Proof.
  revert d. induction cols as [|x cols IH]; intros d H; [done|].
  simpl. by apply IH, coerce_column_preserves.
Qed.

Lemma coerce_columns_numeric (cols : list string) (d : DataFrame) (c : string) :
  c ∈ cols → has_column d c = true →
  numeric_at c (foldl (coerce_column lib) d cols).
Proof.
  revert d. induction cols as [|x cols IH]; intros d Hc Hd.
  - by apply not_elem_of_nil in Hc.
  - simpl. destruct (decide (x = c)) as [->|Hne].
    + by apply coerce_columns_preserves, coerce_column_numeric.
    + apply IH.
      * apply elem_of_cons in Hc as [->|Hc]; done.
      * unfold has_column in *. by rewrite coerce_column_columns.
Qed.

Lemma ensure_id_has_column (d : DataFrame) (c : string) :
  c ≠ "ID" → has_column (ensure_id d) c = has_column d c.
Proof.
  intros Hne. unfold ensure_id. destruct (has_column d "ID") eqn:E; [done|].
  unfold has_column in *. simpl. unfold add_label. rewrite E.
  apply bool_decide_ext. rewrite elem_of_app, list_elem_of_singleton. tauto.
Qed.

Lemma ensure_id_numeric (d : DataFrame) (c : string) :
  c ≠ "ID" → numeric_at c d → numeric_at c (ensure_id d).
Proof.
  intros Hne H r Hr. unfold ensure_id in Hr.
  destruct (has_column d "ID"); [by apply H|].
  simpl in Hr. apply elem_of_lookup_imap_1 in Hr as (i & r0 & -> & Hr0).
  rewrite lookup_insert_ne by done. apply H.
  by eapply list_elem_of_lookup_2.
Qed.

Lemma numeric_cols_not_ID (c : string) : c ∈ numeric_cols → c ≠ "ID".
Proof.
  intros Hc ->. apply list_elem_of_In in Hc. simpl in Hc.
  repeat (destruct Hc as [Hc|Hc]; [discriminate|]). done.
Qed.

Lemma coerced_numeric (cols : list string) (d : DataFrame) (c : string) :
  c ∈ cols → c ≠ "ID" →
  has_column (ensure_id (foldl (coerce_column lib) d cols)) c = true →
  numeric_at c (ensure_id (foldl (coerce_column lib) d cols)).
Proof.
  intros Hc Hne Hcol. rewrite ensure_id_has_column in Hcol by done.
  apply ensure_id_numeric; [done|].
  apply coerce_columns_numeric; [done|].
  unfold has_column in *. by rewrite coerce_columns_columns in Hcol.
Qed.

(** After the loader has processed a frame, every numeric column it has
    holds a number in every record. *)
Lemma process_level_numeric (df : DataFrame) (c : string) :
  c ∈ numeric_cols → has_column (process_level lib df) c = true →
  numeric_at c (process_level lib df).
Proof.
  intros Hc. unfold process_level.
  apply coerced_numeric; [done|]. by apply numeric_cols_not_ID.
Qed.




(** The loader keeps the columns of the sheet. *)
Lemma coerced_has_column (cols : list string) (d : DataFrame) (c : string) :
  has_column d c = true →
  has_column (ensure_id (foldl (coerce_column lib) d cols)) c = true.
Proof.
  intros H. unfold ensure_id.
  assert (Hc : has_column (foldl (coerce_column lib) d cols) c = true)
    by (unfold has_column in *; by rewrite coerce_columns_columns).
  destruct (has_column (foldl (coerce_column lib) d cols) "ID"); [done|].
  apply has_column_true in Hc. apply has_column_true. simpl.
  unfold add_label. case_bool_decide; [done|]. apply elem_of_app. by left.
Qed.

Lemma process_level_has_column (df : DataFrame) (c : string) :
  has_column df c = true → has_column (process_level lib df) c = true.
Proof.
  intros H. unfold process_level. apply coerced_has_column.
  apply has_column_true in H. apply has_column_true.
  unfold with_hp. cbn [columns assign select]. unfold add_label.
  case_bool_decide; [done|]. apply elem_of_app. by left.
Qed.

(** A cell the frame has in every record is still there after the
    coercions and the numbering. *)
Lemma coerced_has_cell (cols : list string) (d : DataFrame) (c : string) :
  (∀ r, r ∈ rows d → is_Some (r !! c)) →
  ∀ r, r ∈ rows (ensure_id (foldl (coerce_column lib) d cols)) →
       is_Some (r !! c).
Proof.
  intros H.
  assert (Hf : ∀ r, r ∈ rows (foldl (coerce_column lib) d cols) →
                    is_Some (r !! c)).
  { clear -H. revert d H. induction cols as [|x cols IH]; intros d H; [done|].
    simpl. apply IH. intros r Hr. unfold coerce_column in Hr.
    destruct (has_column d x); [|by apply H]. simpl in Hr.
    apply list_elem_of_In, in_map_iff in Hr as (r0 & <- & Hr0).
    apply lookup_insert_is_Some'. right. by apply H, list_elem_of_In. }
  intros r Hr. unfold ensure_id in Hr.
  destruct (has_column (foldl (coerce_column lib) d cols) "ID"); [by apply Hf|].
  simpl in Hr. apply elem_of_lookup_imap_1 in Hr as (i & r0 & -> & Hr0).
  apply lookup_insert_is_Some'. right. apply Hf.
  by eapply list_elem_of_lookup_2.
Qed.

(** Every level the loader stores has a health cell in every record; with
    a [Location] column on the sheet it meets [details_ready]. *)
Lemma process_level_details_ready (df : DataFrame) :
  has_column df "Name" = true → has_column df "Location" = true →
  details_ready (process_level lib df) = true.
Proof.
  intros Hn Hl. unfold details_ready.
  rewrite !process_level_has_column by done. cbn [andb].
  apply forallb_forall. intros r Hr. apply bool_decide_eq_true.
  apply list_elem_of_In in Hr. revert r Hr. unfold process_level.
  apply (coerced_has_cell numeric_cols (with_hp lib df)). intros r Hr.
  unfold with_hp in Hr. cbn [rows assign] in Hr.
  apply list_elem_of_In, in_map_iff in Hr as (r0 & <- & _).
  rewrite lookup_insert_eq. by eexists.
Qed.

End Coercion.

(** ** Region averages *)

Section RegionAverages.

Context (lib : PyLib).




End RegionAverages.




(** ** Totality of the queries *)

Section Totality.

Context (lib : PyLib) (advisor : Advisor).









Lemma save_ai_cache_ai_cache (cache : gmap string string) (w : World) :
  ai_cache (save_ai_cache cache w) = ai_cache w.
Proof. unfold save_ai_cache. by destruct (writable w). Qed.

Lemma save_ai_cache_sent (cache : gmap string string) (w : World) :
  sent (save_ai_cache cache w) = sent w.
Proof. unfold save_ai_cache. by destruct (writable w). Qed.


End Totality.



(** ** The dataset cache *)

Section DatasetCache.

Context (lib : PyLib).

Lemma save_cache_written (w : World) :
  elden_data w ≠ ∅ → writable w = true →
  CACHE_FILE (save_cache w) = Some (Pickled (elden_data w)).
Proof.
  intros Hne Hw. unfold save_cache.
  rewrite bool_decide_eq_false_2 by done. by rewrite Hw.
Qed.

(** C7, as amended: a dataset that is not empty, dumped to a cache file
    that can be written, is what the load path without forced reload
    holds afterwards, the workbook not being read; a cache file that does
    not load sends the load path to the workbook, as a forced reload
    does. *)
Theorem dataset_cache_roundtrip (w w' : World) :
  elden_data w ≠ ∅ → writable w = true →
  CACHE_FILE w' = CACHE_FILE (save_cache w) →
  elden_data (load_elden_ring_data lib false w') = elden_data w ∧
  load_elden_ring_data lib false w'
    = print CacheLoaded (set_elden_data (elden_data w) w') ∧
  (∀ v, CACHE_FILE v = Some Corrupt →
        load_elden_ring_data lib false v
        = load_from_excel lib (print CacheLoadFailed v)) ∧
  (∀ v, load_elden_ring_data lib true v = load_from_excel lib v).
Proof.
  intros Hne Hw Hfile. rewrite save_cache_written in Hfile by done.
  unfold load_elden_ring_data. rewrite Hfile. simpl.
  repeat split. intros v ->. done.
Qed.

End DatasetCache.

Lemma stat_world_loaded : size (elden_data stat_world) = 1%nat.
Proof. vm_compute. reflexivity. Qed.

(** The process that loaded the sheet of statistics dumps its dataset; a
    process started on that file holds the same dataset after loading. *)
Lemma dataset_cache_roundtrip_witness :
  elden_data stat_world ≠ ∅ ∧ writable stat_world = true ∧
  CACHE_FILE (restarted (save_cache stat_world))
    = CACHE_FILE (save_cache stat_world) ∧
  elden_data (load_elden_ring_data example_lib false
                (restarted (save_cache stat_world)))
    = elden_data stat_world.
Proof.
  assert (H1 : elden_data stat_world ≠ ∅).
  { intros E. pose proof stat_world_loaded as H. rewrite E in H.
    by rewrite map_size_empty in H. }
  assert (H2 : writable stat_world = true) by (vm_compute; reflexivity).
  split; [exact H1|]. split; [exact H2|]. split; [reflexivity|].
  apply (dataset_cache_roundtrip example_lib stat_world
           (restarted (save_cache stat_world)) H1 H2 eq_refl).
Defined.

(** C7 as stated fails on the empty dataset, which is not dumped: the
    load path then holds what an older cache file has. *)
Lemma empty_dataset_not_saved :
  elden_data stale_world = ∅ ∧
  save_cache stale_world = stale_world ∧
  elden_data (load_elden_ring_data example_lib false (save_cache stale_world))
    ≠ elden_data stale_world.
Proof.
  split; [reflexivity|]. split; [reflexivity|].
  intros E.
  assert (H : size (elden_data (load_elden_ring_data example_lib false
                                  (save_cache stale_world))) = 1%nat)
    by (vm_compute; reflexivity).
  rewrite E in H. change (elden_data stale_world) with (∅ : gmap string DataFrame) in H.
  by rewrite map_size_empty in H.
Qed.

(** ** The advisory cache *)

Lemma append_length (a b : string) :
  String.length (a ++ b) = (String.length a + String.length b)%nat.
Proof. induction a as [|c a IH]; simpl; [done|]. by rewrite IH. Qed.

Lemma append_cancel (a x y : string) : a ++ x = a ++ y → x = y.
Proof. induction a as [|c a IH]; simpl; [done|]. intros [= H]. by apply IH. Qed.

(** The key of the admin update is never the key of a lookup of the same
    name. *)
Lemma admin_key_not_enemy_key (n l : string) : admin_key n ≠ enemy_key n l.
Proof.
  unfold admin_key, enemy_key. intros E. apply append_cancel in E.
  apply (f_equal String.length) in E. rewrite append_length in E.
  simpl in E. lia.
Qed.

Section Advisory.

Context (lib : PyLib) (advisor : Advisor).

(** A lookup of a cached key returns the text and leaves the process as
    it was: nothing is sent to the service. *)
Lemma analyze_with_ai_hit (s : subject) (w : World) (text : string) :
  ai_cache w !! cache_key lib s = Some text →
  analyze_with_ai lib advisor s w = (text, w).
Proof. intros H. unfold analyze_with_ai. by rewrite H. Qed.

(** A lookup of a key that is not cached sends the prompt and returns
    the answer of the service, or the fallback. *)
Lemma analyze_with_ai_miss (s : subject) (w : World) :
  ai_cache w !! cache_key lib s = None →
  sent (analyze_with_ai lib advisor s w).2
    = (sent w ++ [prompt_for advisor s])%list ∧
  (analyze_with_ai lib advisor s w).1
    = match claude advisor (sent w) (prompt_for advisor s) with
      | Ok text => text
      | Raise _ => fallback
      end.
Proof.
  intros H. unfold analyze_with_ai. rewrite H.
  destruct (claude advisor (sent w) (prompt_for advisor s)); simpl; [|done].
  by rewrite save_ai_cache_sent.
Qed.

(** C6: the key of an enemy is [enemy_], its name, [_] and its location;
    a lookup that misses and is answered by the service returns the
    answer, having sent one prompt, cached the answer under the key and
    dumped the cache, which is then the content of the cache file, and
    what a restart loads, when the file can be written; the next lookup
    of the same enemy, and every lookup
    that finds the key cached, returns the cached text and sends
    nothing. *)
Theorem advisory_memoized (d : Details) (w : World) (text : string) :
  ai_cache w !! cache_key lib (EnemySubject d) = None →
  claude advisor (sent w) (prompt_for advisor (EnemySubject d)) = Ok text →
  cache_key lib (EnemySubject d)
    = "enemy_" ++ py_str lib (name d) ++ "_" ++ py_str lib (location d) ∧
  (analyze_with_ai lib advisor (EnemySubject d) w).1 = text ∧
  sent (analyze_with_ai lib advisor (EnemySubject d) w).2
    = (sent w ++ [prompt_for advisor (EnemySubject d)])%list ∧
  ai_cache (analyze_with_ai lib advisor (EnemySubject d) w).2
    = <[cache_key lib (EnemySubject d) := text]> (ai_cache w) ∧
  (analyze_with_ai lib advisor (EnemySubject d) w).2
    = save_ai_cache (<[cache_key lib (EnemySubject d) := text]> (ai_cache w))
        (set_ai_cache (<[cache_key lib (EnemySubject d) := text]> (ai_cache w))
           (record_call (prompt_for advisor (EnemySubject d)) w)) ∧
  (writable w = true →
   AI_CACHE_FILE (analyze_with_ai lib advisor (EnemySubject d) w).2
     = Some (Pickled (<[cache_key lib (EnemySubject d) := text]> (ai_cache w)))) ∧
  (writable w = true →
   load_ai_cache (analyze_with_ai lib advisor (EnemySubject d) w).2
     = <[cache_key lib (EnemySubject d) := text]> (ai_cache w)) ∧
  analyze_with_ai lib advisor (EnemySubject d)
      (analyze_with_ai lib advisor (EnemySubject d) w).2
    = (text, (analyze_with_ai lib advisor (EnemySubject d) w).2) ∧
  (∀ v cached, ai_cache v !! cache_key lib (EnemySubject d) = Some cached →
     analyze_with_ai lib advisor (EnemySubject d) v = (cached, v)).
Proof.
  intros Hmiss Hok. split; [reflexivity|].
  assert (Hrun : analyze_with_ai lib advisor (EnemySubject d) w
    = (text,
       save_ai_cache (<[cache_key lib (EnemySubject d) := text]> (ai_cache w))
         (set_ai_cache (<[cache_key lib (EnemySubject d) := text]> (ai_cache w))
            (record_call (prompt_for advisor (EnemySubject d)) w)))).
  { unfold analyze_with_ai. by rewrite Hmiss, Hok. }
  rewrite Hrun. cbn [fst snd].
  split; [done|]. split; [by rewrite save_ai_cache_sent|].
  split; [by rewrite save_ai_cache_ai_cache|]. split; [done|].
  split; [intros Hw; unfold save_ai_cache; simpl; by rewrite Hw|].
  split; [intros Hw; unfold load_ai_cache, save_ai_cache; simpl; by rewrite Hw|].
  split; [|intros v cached; apply analyze_with_ai_hit].
  apply analyze_with_ai_hit. rewrite save_ai_cache_ai_cache. simpl.
  by rewrite lookup_insert_eq.
Qed.

(** C9: the admin update stores the text under [enemy_] and the name,
    which is not the key of any lookup of that name; a lookup of the
    enemy that was not cached before the update is not cached after it:
    it sends its prompt and returns what the service answers, or the
    fallback. *)
Theorem admin_update_misses (d : Details) (text : string) (w : World) :
  py_str lib (name d) ≠ "" → text ≠ "" →
  ai_cache w !! cache_key lib (EnemySubject d) = None →
  (update_ai_cache (Some (py_str lib (name d))) (Some text) w).1
    = Updated ("enemy_" ++ py_str lib (name d)) ∧
  ai_cache (update_ai_cache (Some (py_str lib (name d))) (Some text) w).2
    = <["enemy_" ++ py_str lib (name d) := text]> (ai_cache w) ∧
  "enemy_" ++ py_str lib (name d) ≠ cache_key lib (EnemySubject d) ∧
  ai_cache (update_ai_cache (Some (py_str lib (name d))) (Some text) w).2
    !! cache_key lib (EnemySubject d) = None ∧
  sent (analyze_with_ai lib advisor (EnemySubject d)
          (update_ai_cache (Some (py_str lib (name d))) (Some text) w).2).2
    = (sent w ++ [prompt_for advisor (EnemySubject d)])%list ∧
  (analyze_with_ai lib advisor (EnemySubject d)
     (update_ai_cache (Some (py_str lib (name d))) (Some text) w).2).1
    = match claude advisor (sent w) (prompt_for advisor (EnemySubject d)) with
      | Ok answer => answer
      | Raise _ => fallback
      end.
Proof.
  intros Hn Ht Hmiss.
  pose proof (admin_key_not_enemy_key (py_str lib (name d))
                (py_str lib (location d))) as Hkey.
  assert (Hrun : update_ai_cache (Some (py_str lib (name d))) (Some text) w
    = (Updated (admin_key (py_str lib (name d))),
       save_ai_cache (<[admin_key (py_str lib (name d)) := text]> (ai_cache w))
         (set_ai_cache (<[admin_key (py_str lib (name d)) := text]> (ai_cache w))
            w))).
  { unfold update_ai_cache. simpl.
    by rewrite !bool_decide_eq_false_2 by done. }
  rewrite Hrun. cbn [fst snd].
  assert (Hmiss' : ai_cache (save_ai_cache
             (<[admin_key (py_str lib (name d)) := text]> (ai_cache w))
             (set_ai_cache (<[admin_key (py_str lib (name d)) := text]> (ai_cache w)) w))
           !! cache_key lib (EnemySubject d) = None).
  { rewrite save_ai_cache_ai_cache. simpl. by rewrite lookup_insert_ne. }
  destruct (analyze_with_ai_miss (EnemySubject d) _ Hmiss') as [Hsent Hres].
  rewrite save_ai_cache_sent in Hsent, Hres. simpl in Hsent, Hres.
  split; [done|]. split; [by rewrite save_ai_cache_ai_cache|].
  split; [exact Hkey|]. split; [exact Hmiss'|]. split; [exact Hsent|exact Hres].
Qed.

(** C10: a lookup that misses and whose call to the service raises
    returns the fixed fallback text, with the cache and the cache file as
    they were; the key is still not cached, so the next lookup of the same
    subject sends its prompt again. *)
Theorem advisory_failure (s : subject) (w : World) (e : exn) :
  ai_cache w !! cache_key lib s = None →
  claude advisor (sent w) (prompt_for advisor s) = Raise e →
  (analyze_with_ai lib advisor s w).1
    = "Strategy analysis unavailable. Check enemy weaknesses in the stats." ∧
  ai_cache (analyze_with_ai lib advisor s w).2 = ai_cache w ∧
  AI_CACHE_FILE (analyze_with_ai lib advisor s w).2 = AI_CACHE_FILE w ∧
  sent (analyze_with_ai lib advisor s w).2
    = (sent w ++ [prompt_for advisor s])%list ∧
  ai_cache (analyze_with_ai lib advisor s w).2 !! cache_key lib s = None ∧
  sent (analyze_with_ai lib advisor s (analyze_with_ai lib advisor s w).2).2
    = (sent w ++ [prompt_for advisor s; prompt_for advisor s])%list.
Proof.
  intros Hmiss Hraise.
  assert (Hrun : analyze_with_ai lib advisor s w
                 = (fallback, record_call (prompt_for advisor s) w)).
  { unfold analyze_with_ai. by rewrite Hmiss, Hraise. }
  rewrite Hrun. cbn [fst snd].
  split; [reflexivity|]. split; [done|]. split; [done|]. split; [done|].
  split; [exact Hmiss|].
  destruct (analyze_with_ai_miss s (record_call (prompt_for advisor s) w) Hmiss)
    as [-> _].
  simpl. by rewrite <- app_assoc.
Qed.

End Advisory.

(** The first lookup of Runebear at Limgrave is answered by the service
    and cached under [enemy_Runebear_Limgrave]; the second returns the
    same text and sends nothing more. *)
Lemma advisory_memoized_witness :
  let advisor := scripted [Ok "Use fire."] in
  ai_cache fresh_world !! cache_key example_lib runebear = None ∧
  claude advisor (sent fresh_world) (prompt_for advisor runebear)
    = Ok "Use fire." ∧
  cache_key example_lib runebear = "enemy_Runebear_Limgrave" ∧
  (analyze_with_ai example_lib advisor runebear fresh_world).1 = "Use fire." ∧
  AI_CACHE_FILE (analyze_with_ai example_lib advisor runebear fresh_world).2
    = Some (Pickled {[ "enemy_Runebear_Limgrave" := "Use fire." ]}) ∧
  (analyze_with_ai example_lib advisor runebear
     (analyze_with_ai example_lib advisor runebear fresh_world).2).1
    = "Use fire." ∧
  sent (analyze_with_ai example_lib advisor runebear
          (analyze_with_ai example_lib advisor runebear fresh_world).2).2
    = [prompt_for advisor runebear].
Proof.
  intros advisor.
  assert (H1 : ai_cache fresh_world !! cache_key example_lib runebear = None)
    by (vm_compute; reflexivity).
  assert (H2 : claude advisor (sent fresh_world) (prompt_for advisor runebear)
               = Ok "Use fire.") by (vm_compute; reflexivity).
  destruct (advisory_memoized example_lib advisor runebear_details fresh_world
              "Use fire." H1 H2)
    as (Hkey & Hres & Hsent & _ & _ & Hfile & _ & Hagain & _).
  split; [exact H1|]. split; [exact H2|].
  split; [vm_compute; reflexivity|]. split; [exact Hres|].
  unfold runebear.
  split; [rewrite (Hfile eq_refl); vm_compute; reflexivity|].
  rewrite Hagain. cbn [fst snd].
  split; [reflexivity|]. rewrite Hsent. reflexivity.
Defined.

(** After the admin stores a strategy for Runebear, the lookup of
    Runebear at Limgrave still goes to the service and returns its
    answer. *)
Lemma admin_update_misses_witness :
  let advisor := scripted [Ok "Use fire."] in
  py_str example_lib (name runebear_details) ≠ "" ∧ "Hit it." ≠ "" ∧
  ai_cache fresh_world !! cache_key example_lib runebear = None ∧
  (update_ai_cache (Some "Runebear") (Some "Hit it.") fresh_world).1
    = Updated "enemy_Runebear" ∧
  (analyze_with_ai example_lib advisor runebear
     (update_ai_cache (Some "Runebear") (Some "Hit it.") fresh_world).2).1
    = "Use fire.".
Proof.
  intros advisor.
  assert (H1 : py_str example_lib (name runebear_details) ≠ "") by discriminate.
  assert (H2 : "Hit it." ≠ "") by discriminate.
  assert (H3 : ai_cache fresh_world !! cache_key example_lib runebear = None)
    by (vm_compute; reflexivity).
  destruct (admin_update_misses example_lib advisor runebear_details "Hit it."
              fresh_world H1 H2 H3) as (Hreply & _ & _ & _ & _ & Hres).
  split; [exact H1|]. split; [exact H2|]. split; [exact H3|].
  split; [exact Hreply|]. exact Hres.
Defined.

(** The service raises on the first call: the lookup returns the
    fallback and caches nothing, and the second lookup calls again. *)
Lemma advisory_failure_witness :
  let advisor := scripted [Raise ServiceError; Ok "Use fire."] in
  ai_cache fresh_world !! cache_key example_lib runebear = None ∧
  claude advisor (sent fresh_world) (prompt_for advisor runebear)
    = Raise ServiceError ∧
  (analyze_with_ai example_lib advisor runebear fresh_world).1 = fallback ∧
  ai_cache (analyze_with_ai example_lib advisor runebear fresh_world).2 = ∅ ∧
  AI_CACHE_FILE (analyze_with_ai example_lib advisor runebear fresh_world).2
    = None ∧
  sent (analyze_with_ai example_lib advisor runebear
          (analyze_with_ai example_lib advisor runebear fresh_world).2).2
    = [prompt_for advisor runebear; prompt_for advisor runebear].
Proof.
  intros advisor.
  assert (H1 : ai_cache fresh_world !! cache_key example_lib runebear = None)
    by (vm_compute; reflexivity).
  assert (H2 : claude advisor (sent fresh_world) (prompt_for advisor runebear)
               = Raise ServiceError) by (vm_compute; reflexivity).
  destruct (advisory_failure example_lib advisor runebear fresh_world
              ServiceError H1 H2)
    as (Hres & Hcache & Hfile & _ & _ & Hagain).
  split; [exact H1|]. split; [exact H2|]. split; [exact Hres|].
  split; [exact Hcache|]. split; [exact Hfile|]. exact Hagain.
Defined.

(** * Further properties *)

(** ** The rows of a stored level *)

Section LoaderRows.

Context (lib : PyLib).

Lemma with_hp_rows (df : DataFrame) :
  rows (with_hp lib df)
  = map (λ r, <["HP" := Num (derive_hp lib r)]> r) (kept_rows df).
Proof.
  unfold with_hp, kept_rows. cbn [rows assign select]. f_equal.
  rewrite list_filter_filter. apply list_filter_iff. intros r.
  unfold named. rewrite andb_true_iff. tauto.
Qed.

Lemma with_hp_columns (df : DataFrame) :
  columns (with_hp lib df) = add_label "HP" (columns df).
Proof. reflexivity. Qed.

Lemma coerce_column_rows (d : DataFrame) (x : string) :
  rows (coerce_column lib d x)
  = map (λ r, coerce_row lib (columns d) r x) (rows d).
Proof.
  unfold coerce_column, coerce_row, has_column.
  destruct (bool_decide (x ∈ columns d)); [done|].
  by rewrite map_id.
Qed.

Lemma coerce_columns_rows (cols : list string) (d : DataFrame) :
  rows (foldl (coerce_column lib) d cols)
  = map (λ r, foldl (coerce_row lib (columns d)) r cols) (rows d).
Proof.
  revert d. induction cols as [|x cols IH]; intros d.
  - by rewrite map_id.
  - change (foldl (coerce_column lib) d (x :: cols))
      with (foldl (coerce_column lib) (coerce_column lib d x) cols).
    rewrite IH, coerce_column_columns, coerce_column_rows, map_map.
    reflexivity.
Qed.

Lemma coerce_row_lookup (present : list string) (r : Row) (x c : string) :
  coerce_row lib present r x !! c
  = if bool_decide (x = c ∧ c ∈ present)
    then Some (coerce_cell lib (row_get r c)) else r !! c.
Proof.
  unfold coerce_row.
  destruct (decide (x = c)) as [->|Hne], (decide (c ∈ present)) as [Hp|Hp].
  - by rewrite !bool_decide_eq_true_2, lookup_insert_eq.
  - rewrite !bool_decide_eq_false_2; [done| |done]. by intros [_ ?].
  - rewrite (bool_decide_eq_false_2 (x = c ∧ c ∈ present)) by (by intros [? _]).
    destruct (bool_decide (x ∈ present)); [|done]. by rewrite lookup_insert_ne.
  - rewrite (bool_decide_eq_false_2 (x = c ∧ c ∈ present)) by (by intros [? _]).
    destruct (bool_decide (x ∈ present)); [|done]. by rewrite lookup_insert_ne.
Qed.

Lemma coerce_rows_lookup (present cols : list string) (r : Row) (c : string) :
  foldl (coerce_row lib present) r cols !! c
  = if bool_decide (c ∈ cols ∧ c ∈ present)
    then Some (coerce_cell lib (row_get r c)) else r !! c.
Proof.
  revert r. induction cols as [|x cols IH]; intros r.
  - rewrite bool_decide_eq_false_2; [done|]. intros [H _].
    by apply not_elem_of_nil in H.
  - change (foldl (coerce_row lib present) r (x :: cols))
      with (foldl (coerce_row lib present) (coerce_row lib present r x) cols).
    rewrite IH. clear IH.
    assert (Hc : coerce_cell lib (row_get (coerce_row lib present r x) c)
                 = coerce_cell lib (row_get r c)).
    { unfold row_get at 1. rewrite coerce_row_lookup.
      by destruct (bool_decide (x = c ∧ c ∈ present)). }
    rewrite coerce_row_lookup, Hc.
    destruct (decide (x = c)) as [Hx|Hx], (decide (c ∈ present)) as [Hp|Hp],
      (decide (c ∈ cols)) as [Hi|Hi];
      repeat (first
        [rewrite (bool_decide_eq_true_2 (c ∈ cols ∧ c ∈ present)) by tauto
        |rewrite (bool_decide_eq_false_2 (c ∈ cols ∧ c ∈ present)) by tauto
        |rewrite (bool_decide_eq_true_2 (x = c ∧ c ∈ present)) by tauto
        |rewrite (bool_decide_eq_false_2 (x = c ∧ c ∈ present)) by tauto
        |rewrite (bool_decide_eq_true_2 (c ∈ x :: cols ∧ c ∈ present))
           by (rewrite elem_of_cons; intuition congruence)
        |rewrite (bool_decide_eq_false_2 (c ∈ x :: cols ∧ c ∈ present))
           by (rewrite elem_of_cons; intuition congruence)]);
      reflexivity.
Qed.

Lemma imap_lookup_ne (f : nat → cell) (c : string) (l : list Row) :
  c ≠ "ID" →
  map (λ r : Row, r !! c) (imap (λ i (r : Row), <["ID" := f i]> r) l)
  = map (λ r : Row, r !! c) l.
Proof.
  intros Hne. revert f. induction l as [|x l IH]; intros f; [done|].
  cbn [imap map]. rewrite lookup_insert_ne by done. f_equal.
  apply (IH (f ∘ S)).
Qed.

Lemma imap_lookup_eq (f : nat → cell) (n : nat) (l : list Row) :
  map (λ r : Row, r !! "ID") (imap (λ i (r : Row), <["ID" := f (n + i)%nat]> r) l)
  = map (λ i, Some (f i)) (seq n (length l)).
Proof.
  revert n. induction l as [|x l IH]; intros n; [done|].
  cbn [imap map length seq]. rewrite lookup_insert_eq, Nat.add_0_r. f_equal.
  rewrite <- (IH (S n)). f_equal. apply imap_ext. intros i r _. simpl.
  by rewrite Nat.add_succ_r.
Qed.

(** The rows of a stored level, from the rows of the sheet. *)
Lemma process_level_rows (df : DataFrame) :
  rows (process_level lib df)
  = let coerced_rows :=
      map (λ r, foldl (coerce_row lib (add_label "HP" (columns df)))
                      (<["HP" := Num (derive_hp lib r)]> r) numeric_cols)
          (kept_rows df) in
    if has_column df "ID" then coerced_rows
    else imap (λ i r, <["ID" := Num (inject_Z (Z.of_nat (S i)))]> r) coerced_rows.
Proof.
  unfold process_level, ensure_id.
  assert (Hid : has_column (foldl (coerce_column lib) (with_hp lib df) numeric_cols) "ID"
                = has_column df "ID").
  { unfold has_column. rewrite coerce_columns_columns, with_hp_columns.
    apply bool_decide_ext. unfold add_label. case_bool_decide; [done|].
    rewrite elem_of_app, list_elem_of_singleton.
    split; [intros [?|?]; [done|discriminate]|tauto]. }
  rewrite Hid.
  assert (Hrows : rows (foldl (coerce_column lib) (with_hp lib df) numeric_cols)
    = map (λ r, foldl (coerce_row lib (add_label "HP" (columns df)))
                      (<["HP" := Num (derive_hp lib r)]> r) numeric_cols)
          (kept_rows df)).
  { by rewrite coerce_columns_rows, with_hp_rows, with_hp_columns, map_map. }
  destruct (has_column df "ID"); cbn zeta.
  - exact Hrows.
  - cbn [rows number_rows]. by rewrite Hrows.
Qed.

Lemma numeric_cols_not_HP (c : string) : c ∈ numeric_cols → c ≠ "HP".
Proof.
  intros Hc ->. apply list_elem_of_In in Hc. simpl in Hc.
  repeat (destruct Hc as [Hc|Hc]; [discriminate|]). done.
Qed.

(** The cell of a stored row under a label, from the row of the sheet. *)
Lemma coerced_row_lookup (df : DataFrame) (r : Row) (c : string) :
  foldl (coerce_row lib (add_label "HP" (columns df)))
        (<["HP" := Num (derive_hp lib r)]> r) numeric_cols !! c
  = if bool_decide (c = "HP") then Some (Num (derive_hp lib r))
    else if bool_decide (c ∈ numeric_cols) && has_column df c
         then Some (coerce_cell lib (row_get r c))
         else r !! c.
Proof.
  rewrite coerce_rows_lookup.
  destruct (decide (c = "HP")) as [->|Hne].
  - rewrite bool_decide_eq_false_2.
    + by rewrite lookup_insert_eq, bool_decide_eq_true_2.
    + intros [H _]. by apply numeric_cols_not_HP in H.
  - rewrite (bool_decide_eq_false_2 (c = "HP")) by done.
    assert (Hin : c ∈ add_label "HP" (columns df) ↔ c ∈ columns df).
    { unfold add_label. case_bool_decide; [done|].
      rewrite elem_of_app, list_elem_of_singleton. tauto. }
    unfold has_column, row_get. rewrite lookup_insert_ne by done.
    destruct (decide (c ∈ numeric_cols)), (decide (c ∈ columns df)).
    + rewrite !bool_decide_eq_true_2; [done|done|done|]. by rewrite Hin.
    + rewrite bool_decide_eq_false_2 by (rewrite Hin; tauto).
      by rewrite (bool_decide_eq_false_2 (c ∈ columns df)), andb_false_r.
    + rewrite bool_decide_eq_false_2 by tauto.
      by rewrite (bool_decide_eq_false_2 (c ∈ numeric_cols)).
    + rewrite bool_decide_eq_false_2 by tauto.
      by rewrite (bool_decide_eq_false_2 (c ∈ numeric_cols)).
Qed.

(** The cells of a stored level under a label other than [ID]. *)
Lemma process_level_cells (df : DataFrame) (c : string) :
  c ≠ "ID" ∨ has_column df "ID" = true →
  map (λ r : Row, r !! c) (rows (process_level lib df))
  = map (λ r : Row,
           if bool_decide (c = "HP") then Some (Num (derive_hp lib r))
           else if bool_decide (c ∈ numeric_cols) && has_column df c
                then Some (coerce_cell lib (row_get r c))
                else r !! c)
        (kept_rows df).
Proof.
  intros Hc. rewrite process_level_rows. cbn zeta.
  assert (Hmap : ∀ l : list Row,
    map (λ r : Row, r !! c)
        (map (λ r, foldl (coerce_row lib (add_label "HP" (columns df)))
                         (<["HP" := Num (derive_hp lib r)]> r) numeric_cols) l)
    = map (λ r : Row,
             if bool_decide (c = "HP") then Some (Num (derive_hp lib r))
             else if bool_decide (c ∈ numeric_cols) && has_column df c
                  then Some (coerce_cell lib (row_get r c))
                  else r !! c) l).
  { intros l. rewrite map_map. apply map_ext. intros r.
    apply coerced_row_lookup. }
  destruct (has_column df "ID") eqn:Hid; [apply Hmap|].
  destruct Hc as [Hc|Hc]; [|discriminate].
  rewrite imap_lookup_ne by done. apply Hmap.
Qed.

(** X1: the loader keeps, in the order of the sheet, exactly the rows
    with a name other than the placeholder, and leaves every cell as read
    under the labels it does not write. *)
Theorem process_level_keeps (df : DataFrame) (c : string) :
  written_by_loader df c = false →
  length (rows (process_level lib df)) = length (kept_rows df) ∧
  map (λ r : Row, r !! c) (rows (process_level lib df))
  = map (λ r : Row, r !! c) (kept_rows df).
Proof.
  unfold written_by_loader. rewrite !orb_false_iff.
  intros [[Hhp Hid] Hnum].
  apply bool_decide_eq_false in Hhp.
  assert (Hc : c ≠ "ID" ∨ has_column df "ID" = true).
  { destruct (has_column df "ID"); [by right|]. left.
    rewrite andb_true_r in Hid. by apply bool_decide_eq_false in Hid. }
  pose proof (process_level_cells df c Hc) as Hcells.
  rewrite (bool_decide_eq_false_2 (c = "HP")), Hnum in Hcells by done.
  split; [|exact Hcells].
  apply (f_equal (@length _)) in Hcells. by rewrite !length_map in Hcells.
Qed.

(** X2: the health points of every stored record are those derived from
    its own row of the sheet. *)
Theorem process_level_hp (df : DataFrame) :
  map (λ r : Row, r !! "HP") (rows (process_level lib df))
  = map (λ r, Some (Num (derive_hp lib r))) (kept_rows df).
Proof.
  rewrite process_level_cells by (left; discriminate). reflexivity.
Qed.

(** X3: a numeric column the sheet has holds, in every stored record,
    the number its cell parses to, and 0 for a cell that does not
    parse. *)
Theorem process_level_coerces (df : DataFrame) (c : string) :
  c ∈ numeric_cols → has_column df c = true →
  map (λ r : Row, r !! c) (rows (process_level lib df))
  = map (λ r, Some (Num (fillna0 (to_numeric lib (row_get r c)))))
        (kept_rows df).
Proof.
  intros Hc Hcol.
  rewrite process_level_cells by (left; by apply numeric_cols_not_ID).
  rewrite (bool_decide_eq_false_2 (c = "HP")) by (by apply numeric_cols_not_HP).
  by rewrite (bool_decide_eq_true_2 (c ∈ numeric_cols)), Hcol.
Qed.

(** X4: on a sheet without an [ID] column the stored records are
    numbered 1, 2, ... in their order. *)
Theorem process_level_numbers (df : DataFrame) :
  has_column df "ID" = false →
  map (λ r : Row, r !! "ID") (rows (process_level lib df))
  = map (λ i, Some (Num (inject_Z (Z.of_nat (S i)))))
        (seq 0 (length (kept_rows df))).
Proof.
  intros Hid. rewrite process_level_rows, Hid. cbn zeta.
  rewrite (imap_lookup_eq (λ i, Num (inject_Z (Z.of_nat (S i)))) 0).
  by rewrite length_map.
Qed.

End LoaderRows.

Lemma poise_sheet_listed : "Effective" ∈ numeric_cols.
Proof. apply list_elem_of_In. simpl. tauto. Qed.

(** On the sheet of poise the placeholder row is dropped and the
    locations of the two others are kept as read. *)
Lemma process_level_keeps_witness :
  written_by_loader (normalize_columns example_lib poise_sheet) "Location"
    = false ∧
  length (rows poise_frame) = 2%nat ∧
  map (λ r : Row, r !! "Location") (rows poise_frame)
    = [Some (Str "Crumbling Farum Azula"); Some (Str "Limgrave")].
Proof.
  assert (H : written_by_loader (normalize_columns example_lib poise_sheet)
                "Location" = false) by (vm_compute; reflexivity).
  split; [exact H|]. unfold poise_frame.
  destruct (process_level_keeps example_lib _ "Location" H) as [-> ->].
  split; vm_compute; reflexivity.
Defined.

(** On the sheet of poise the effective poise written as the infinity
    sign is stored as 0. *)
Lemma process_level_coerces_witness :
  "Effective" ∈ numeric_cols ∧
  has_column (normalize_columns example_lib poise_sheet) "Effective" = true ∧
  map (λ r : Row, r !! "Effective") (rows poise_frame)
    = [Some (Num 0); Some (Num 45)].
Proof.
  assert (H : has_column (normalize_columns example_lib poise_sheet)
                "Effective" = true) by (vm_compute; reflexivity).
  split; [exact poise_sheet_listed|]. split; [exact H|]. unfold poise_frame.
  rewrite (process_level_coerces example_lib _ "Effective" poise_sheet_listed H).
  vm_compute. reflexivity.
Defined.

(** The two records kept of the sheet of poise are numbered 1 and 2. *)
Lemma process_level_numbers_witness :
  has_column (normalize_columns example_lib poise_sheet) "ID" = false ∧
  map (λ r : Row, r !! "ID") (rows poise_frame) = [Some (Num 1); Some (Num 2)].
Proof.
  assert (H : has_column (normalize_columns example_lib poise_sheet) "ID"
              = false) by (vm_compute; reflexivity).
  split; [exact H|]. unfold poise_frame.
  rewrite (process_level_numbers example_lib _ H). vm_compute. reflexivity.
Defined.

(** ** What the searches return *)

Lemma mapM_Ok_inv {A B} (f : A → Result B) (l : list A) (k : list B) :
  mapM f l = Ok k → ∀ y, y ∈ k → ∃ x, x ∈ l ∧ f x = Ok y.
Proof.
  revert k. induction l as [|x l IH]; intros k; simpl.
  - intros [= <-] y Hy. by apply not_elem_of_nil in Hy.
  - destruct (f x) as [y0|] eqn:Hx; simpl; [|discriminate].
    destruct (mapM f l) as [k0|]; simpl; [|discriminate].
    intros [= <-] y Hy. apply elem_of_cons in Hy as [->|Hy].
    + exists x. split; [left|done].
    + destruct (IH k0 eq_refl y Hy) as (x' & Hx' & Hf).
      exists x'. split; [by right|done].
Qed.

Lemma trunc_nonneg (q : Q) : Qpositive q = true → (0 ≤ trunc q)%Z.
Proof.
  unfold Qpositive, Qle_bool, trunc. simpl. rewrite Z.mul_1_r.
  intros H. apply negb_true_iff, Z.leb_gt in H.
  apply Z.quot_pos; lia.
Qed.

Lemma trunc_nonpos (q : Q) : Qpositive q = false → (trunc q ≤ 0)%Z.
Proof.
  unfold Qpositive, Qle_bool, trunc. simpl. rewrite Z.mul_1_r.
  intros H. apply negb_false_iff, Z.leb_le in H.
  rewrite <- (Z.opp_involutive (Qnum q)), Z.quot_opp_l by lia.
  pose proof (Z.quot_pos (- Qnum q) (Z.pos (Qden q))). lia.
Qed.

Section SearchResults.

Context (lib : PyLib).







Lemma hit_hp_of_max (c : cell) (z : Z) :
  hit_hp_of c = Ok z → z = Z.max 0 (safe_int lib c 0).
Proof.
  destruct c as [|q|s]; simpl; [by intros [= <-]| |discriminate].
  intros [= <-]. unfold safe_int. simpl.
  destruct (Qpositive q) eqn:E.
  - pose proof (trunc_nonneg q E). lia.
  - pose proof (trunc_nonpos q E). lia.
Qed.

(** X7: the health points of a hit of the name search are never
    negative: they are those the details lookup reads from the same
    record ([safe_int] of its [HP] cell), with 0 in place of a negative
    number. *)
Theorem search_hp_not_negative (w : World) (query ng_level : string)
    (hits : list EnemyHit) (h : EnemyHit) :
  search_enemies lib w query ng_level = Ok hits → h ∈ hits →
  (0 ≤ hit_hp h)%Z ∧
  ∃ r, r ∈ level_rows w ng_level ∧ hit_name h = row_get r "Name" ∧
       hit_hp h = Z.max 0 (safe_int lib (row_get r "HP") 0).
Proof.
  unfold search_enemies, level_rows.
  destruct (elden_data w !! ng_level) as [df|].
  2:{ intros [= <-] Hh. by apply not_elem_of_nil in Hh. }
  destruct (column df "Name") as [names|] eqn:Hnames; simpl; [|discriminate].
  destruct (str_contains lib query names) as [mask|]; simpl; [|discriminate].
  intros Hm Hh. destruct (mapM_Ok_inv _ _ _ Hm h Hh) as (r & Hr & Hhit).
  assert (Hin : r ∈ rows df).
  { simpl in Hr. apply list_elem_of_In, in_map_iff in Hr as ([b r'] & <- & Hr).
    apply list_elem_of_In, list_elem_of_filter in Hr as [_ Hr].
    apply list_elem_of_In, in_combine_r in Hr. by apply list_elem_of_In. }
  unfold enemy_hit, row_item in Hhit.
  destruct (r !! "Name") as [n|] eqn:Hn; simpl in Hhit; [|discriminate].
  destruct (r !! "Location") as [l|]; simpl in Hhit; [|discriminate].
  destruct (r !! "HP") as [c|] eqn:Hc; simpl in Hhit; [|discriminate].
  destruct (hit_hp_of c) as [z|] eqn:Hz; simpl in Hhit; [|discriminate].
  destruct (r !! "ID") as [i|]; simpl in Hhit; [|discriminate].
  injection Hhit as <-. simpl.
  pose proof (hit_hp_of_max c z Hz) as Hmax.
  split; [lia|]. exists r. unfold row_get. rewrite Hn, Hc. by simpl.
Qed.

End SearchResults.



(** The first hit of the search for [bear] has 2400 health points, not a
    negative number. *)
Lemma search_hp_not_negative_witness :
  search_enemies example_lib stat_world "bear" "NG"
    = Ok [caelid_hit; limgrave_hit] ∧
  caelid_hit ∈ [caelid_hit; limgrave_hit] ∧
  (0 ≤ hit_hp caelid_hit)%Z.
Proof.
  assert (H1 : search_enemies example_lib stat_world "bear" "NG"
               = Ok [caelid_hit; limgrave_hit]) by (vm_compute; reflexivity).
  assert (H2 : caelid_hit ∈ [caelid_hit; limgrave_hit]) by left.
  split; [exact H1|]. split; [exact H2|].
  exact (proj1 (search_hp_not_negative example_lib stat_world "bear" "NG"
                  _ _ H1 H2)).
Defined.

(** ** What the details carry *)

Section DetailsCarry.

Context (lib : PyLib).

Lemma enemy_details_fields (enemy : Row) (l : list EnemyInstance) (d : Details) :
  enemy_details lib enemy l = Ok d →
  enemy !! "Name" = Some (name d) ∧
  location d = row_get_default enemy "Location" (Str "Unknown") ∧
  poise_effective (poise d)
  = _parse_poise lib (row_get_default enemy "Effective" (Num 0)).
Proof.
  unfold enemy_details, row_item.
  destruct (enemy !! "Name"); [|discriminate].
  destruct (enemy !! "HP"); [|discriminate].
  intros [= <-]. done.
Qed.

Lemma cell_is_lookup (col text : string) (r : Row) :
  cell_is col text r = true → r !! col = Some (Str text).
Proof.
  unfold cell_is, row_get, cell_eq_str.
  destruct (r !! col) as [[|q|s]|]; simpl; try discriminate.
  intros H. apply bool_decide_eq_true in H. by subst.
Qed.

Lemma narrowed_matches (matches : list Row) (location : option string) (r : Row) :
  r ∈ narrowed matches location → r ∈ matches.
Proof.
  unfold narrowed. destruct location as [[|a loc]|]; try done.
  destruct (filter _ matches) as [|r0 l0] eqn:E; [done|].
  intros Hr. rewrite <- E in Hr. by apply list_elem_of_filter in Hr as [_ ?].
Qed.

Lemma narrowed_at_location (matches : list Row) (loc : string) (r r' : Row) :
  loc ≠ "" → r' ∈ matches → cell_is "Location" loc r' = true →
  r ∈ narrowed matches (Some loc) → cell_is "Location" loc r = true.
Proof.
  intros Hne Hin Hloc. unfold narrowed.
  destruct loc as [|a loc]; [done|].
  destruct (filter _ matches) as [|r0 l0] eqn:E.
  - assert (Hr' : r' ∈ filter (λ r, cell_is "Location" (String a loc) r = true)
                          matches) by (by apply list_elem_of_filter).
    rewrite E in Hr'. by apply not_elem_of_nil in Hr'.
  - intros Hr. rewrite <- E in Hr. by apply list_elem_of_filter in Hr as [? _].
Qed.


End DetailsCarry.


(** ** The immune marker *)

Lemma is_space_lower (a : ascii) : is_space (lower_ascii a) = is_space a.
Proof. destruct a as [[] [] [] [] [] [] [] []]; reflexivity. Qed.

Lemma spaceless_lower (s : string) : spaceless (lower s) = spaceless s.
Proof.
  induction s as [|a s IH]; [done|]. simpl. by rewrite is_space_lower, IH.
Qed.

Lemma lstrip_spaceless (s : string) : spaceless s = true → lstrip s = s.
Proof.
  destruct s as [|a s]; [done|]. simpl. intros H.
  apply andb_prop in H as [H _]. apply negb_true_iff in H. by rewrite H.
Qed.

Lemma rstrip_spaceless (s : string) : spaceless s = true → rstrip s = s.
Proof.
  induction s as [|a s IH]; [done|]. simpl. intros H.
  apply andb_prop in H as [Ha Hs]. apply negb_true_iff in Ha.
  rewrite (IH Hs), Ha. by destruct s.
Qed.

Lemma strip_spaceless (s : string) : spaceless s = true → strip s = s.
Proof.
  intros H. unfold strip. rewrite lstrip_spaceless by done.
  by apply rstrip_spaceless.
Qed.

Section Immune.

Context (lib : PyLib).

(** X9: a resistance that the details show as Immune is a cell that the
    region average leaves out of its count. *)
Theorem immune_is_not_averaged (value : cell) :
  _format_resistance lib value = Immune →
  resistance_value lib value = None.
Proof.
  unfold _format_resistance, resistance_value.
  destruct (isna value); [discriminate|].
  case_bool_decide as Himm.
  - intros _. simpl.
    assert (Hs : spaceless (py_str lib value) = true).
    { rewrite <- spaceless_lower, Himm. reflexivity. }
    rewrite (strip_spaceless _ Hs).
    by rewrite bool_decide_eq_true_2.
  - by destruct (int_of lib value).
Qed.

End Immune.

(** The marker in capitals is Immune in the details and is not averaged;
    the marker between spaces is not averaged either, though the details
    show it as the unknown 999999. *)
Lemma immune_is_not_averaged_witness :
  _format_resistance example_lib (Str "IMMUNE") = Immune ∧
  resistance_value example_lib (Str "IMMUNE") = None ∧
  _format_resistance example_lib (Str " Immune ") = Resist 999999 ∧
  resistance_value example_lib (Str " Immune ") = None.
Proof.
  assert (H : _format_resistance example_lib (Str "IMMUNE") = Immune)
    by (vm_compute; reflexivity).
  split; [exact H|].
  split; [exact (immune_is_not_averaged example_lib _ H)|].
  split; vm_compute; reflexivity.
Defined.

(** ** The other averages of a region *)

Section OtherAverages.

Context (lib : PyLib).













(** X12: the loader turns the effective poise of every record into a
    number before any lookup: when the sheet has the column, the cell of
    every stored record is a number, and the details read that number cut
    to a whole number, a number that prints as infinite apart. *)
Theorem stored_poise_is_number (df : DataFrame) (r : Row) :
  has_column df "Effective" = true → r ∈ rows (process_level lib df) →
  ∃ q, r !! "Effective" = Some (Num q) ∧
       (str_num lib q ≠ "∞" → lower (str_num lib q) ≠ "inf" →
        _parse_poise lib (row_get_default r "Effective" (Num 0)) = trunc q).
Proof.
  intros Hcol Hr.
  destruct (process_level_numeric lib df "Effective") with (r := r)
    as [q Hq]; [apply list_elem_of_In; simpl; tauto| |done|].
  { by apply process_level_has_column. }
  exists q. split; [exact Hq|]. intros H1 H2.
  unfold _parse_poise, row_get_default. rewrite Hq. simpl.
  by rewrite !bool_decide_eq_false_2.
Qed.

End OtherAverages.



(** The Ancient Dragon of the sheet has the infinity sign for effective
    poise: its stored cell is 0 and the details read 0, where the sign
    itself would have been read as 999999. *)
Lemma stored_poise_is_number_witness :
  has_column (normalize_columns example_lib poise_sheet) "Effective" = true ∧
  dragon_row ∈ rows poise_frame ∧
  dragon_row !! "Effective" = Some (Num 0) ∧
  _parse_poise example_lib (row_get_default dragon_row "Effective" (Num 0))
    = 0%Z ∧
  _parse_poise example_lib (Str "∞") = 999999%Z.
Proof.
  assert (H1 : has_column (normalize_columns example_lib poise_sheet)
                 "Effective" = true) by (vm_compute; reflexivity).
  assert (H2 : dragon_row ∈ rows poise_frame).
  { apply (list_elem_of_lookup_2 _ 0%nat). vm_compute. reflexivity. }
  assert (H3 : dragon_row !! "Effective" = Some (Num 0))
    by (vm_compute; reflexivity).
  split; [exact H1|]. split; [exact H2|]. split; [exact H3|].
  split; [|vm_compute; reflexivity].
  destruct (stored_poise_is_number example_lib _ dragon_row H1 H2)
    as (q & Hq & Hp).
  rewrite H3 in Hq. injection Hq as <-.
  apply Hp; intros E; vm_compute in E; discriminate.
Defined.

(** ** The advisory cache over a run of requests *)

Section AdvisoryRuns.

Context (lib : PyLib) (advisor : Advisor).

(** The three ways a lookup ends: answered from the cache, failed, or
    answered by the service and stored. *)
Lemma analyze_with_ai_world (s : subject) (w : World) :
  (∃ text, ai_cache w !! cache_key lib s = Some text ∧
           analyze_with_ai lib advisor s w = (text, w)) ∨
  (ai_cache w !! cache_key lib s = None ∧
   analyze_with_ai lib advisor s w
   = (fallback, record_call (prompt_for advisor s) w)) ∨
  (∃ text, ai_cache w !! cache_key lib s = None ∧
     analyze_with_ai lib advisor s w
     = (text,
        save_ai_cache (<[cache_key lib s := text]> (ai_cache w))
          (set_ai_cache (<[cache_key lib s := text]> (ai_cache w))
             (record_call (prompt_for advisor s) w)))).
Proof.
  unfold analyze_with_ai.
  destruct (ai_cache w !! cache_key lib s) as [text|] eqn:E.
  - left. by exists text.
  - right.
    destruct (claude advisor (sent w) (prompt_for advisor s)) as [text|e].
    + right. by exists text.
    + by left.
Qed.

(** The two ways an admin update ends. *)
Lemma update_ai_cache_world (enemy_name new_strategy : option string)
    (w : World) :
  (falsy enemy_name || falsy new_strategy = true ∧
   update_ai_cache enemy_name new_strategy w = (MissingField, w)) ∨
  (∃ n text, enemy_name = Some n ∧ new_strategy = Some text ∧
     n ≠ "" ∧ text ≠ "" ∧
     update_ai_cache enemy_name new_strategy w
     = (Updated (admin_key n),
        save_ai_cache (<[admin_key n := text]> (ai_cache w))
          (set_ai_cache (<[admin_key n := text]> (ai_cache w)) w))).
Proof.
  unfold update_ai_cache.
  destruct enemy_name as [n|], new_strategy as [text|]; cbn [falsy].
  - destruct (bool_decide (n = "")) eqn:En; cbn [orb]; [by left|].
    destruct (bool_decide (text = "")) eqn:Et; [by left|].
    right. exists n, text.
    apply bool_decide_eq_false in En. apply bool_decide_eq_false in Et. done.
  - left. by rewrite orb_true_r.
  - by left.
  - by left.
Qed.

Lemma serve_keeps (w : World) (r : request) (key text : string) :
  spares key r → ai_cache w !! key = Some text →
  ai_cache (serve lib advisor w r) !! key = Some text.
Proof.
  intros Hs Hc. destruct r as [s|n t]; unfold serve.
  - destruct (analyze_with_ai_world s w)
      as [(x & _ & ->)|[[_ ->]|(x & Hm & ->)]]; cbn [snd]; try done.
    rewrite save_ai_cache_ai_cache. cbn [ai_cache set_ai_cache].
    rewrite lookup_insert_ne; [done|]. intros E. rewrite E in Hm. congruence.
  - destruct (update_ai_cache_world n t w)
      as [[_ ->]|(n0 & x & -> & -> & _ & _ & ->)]; cbn [snd]; [done|].
    rewrite save_ai_cache_ai_cache. cbn [ai_cache set_ai_cache].
    by rewrite lookup_insert_ne.
Qed.

(** X13: a cached strategy is never dropped or replaced by the service:
    over any run of lookups and of admin updates of other keys it stays
    as it is, and every lookup of its key after the run returns it and
    sends nothing. *)
Theorem cached_strategy_stays (rs : list request) (w : World)
    (key text : string) :
  Forall (spares key) rs → ai_cache w !! key = Some text →
  ai_cache (serve_all lib advisor rs w) !! key = Some text ∧
  ∀ s, cache_key lib s = key →
       analyze_with_ai lib advisor s (serve_all lib advisor rs w)
       = (text, serve_all lib advisor rs w).
Proof.
  intros Hs Hc.
  assert (H : ai_cache (serve_all lib advisor rs w) !! key = Some text).
  { unfold serve_all. revert w Hc.
    induction Hs as [|r rs Hr _ IH]; intros w Hc; [done|].
    cbn [foldl]. apply IH. by apply serve_keeps. }
  split; [exact H|]. intros s <-. by apply analyze_with_ai_hit.
Qed.

Lemma serve_mirrored (w : World) (r : request) :
  writable w = true → mirrored w →
  writable (serve lib advisor w r) = true ∧ mirrored (serve lib advisor w r).
Proof.
  intros Hw Hm. destruct r as [s|n t]; unfold serve.
  - destruct (analyze_with_ai_world s w)
      as [(x & _ & ->)|[[_ ->]|(x & _ & ->)]]; cbn [snd]; try done.
    unfold mirrored, load_ai_cache, save_ai_cache.
    cbn [writable set_ai_cache record_call]. rewrite Hw. done.
  - destruct (update_ai_cache_world n t w)
      as [[_ ->]|(n0 & x & _ & _ & _ & _ & ->)]; cbn [snd]; [done|].
    unfold mirrored, load_ai_cache, save_ai_cache.
    cbn [writable set_ai_cache]. rewrite Hw. done.
Qed.

Lemma serve_all_mirrored (rs : list request) (w : World) :
  writable w = true → mirrored w → mirrored (serve_all lib advisor rs w).
Proof.
  unfold serve_all. revert w.
  induction rs as [|r rs IH]; intros w Hw Hm; [done|].
  cbn [foldl]. destruct (serve_mirrored w r Hw Hm) as [Hw' Hm'].
  by apply IH.
Qed.

Lemma load_level_files (wb : Workbook) (w : World) (ng : string) :
  writable (load_level lib wb w ng) = writable w ∧
  AI_CACHE_FILE (load_level lib wb w ng) = AI_CACHE_FILE w.
Proof.
  unfold load_level.
  destruct (find_header lib wb ng header_rows) as [[h df]|]; [|done].
  by case_bool_decide.
Qed.

Lemma load_levels_files (wb : Workbook) (levels : list string) (w : World) :
  writable (foldl (load_level lib wb) w levels) = writable w ∧
  AI_CACHE_FILE (foldl (load_level lib wb) w levels) = AI_CACHE_FILE w.
Proof.
  revert w. induction levels as [|x levels IH]; intros w; [done|].
  cbn [foldl]. destruct (IH (load_level lib wb w x)) as [-> ->].
  apply load_level_files.
Qed.

Lemma save_cache_files (w : World) :
  writable (save_cache w) = writable w ∧
  AI_CACHE_FILE (save_cache w) = AI_CACHE_FILE w.
Proof. unfold save_cache. by repeat case_match. Qed.

Lemma load_from_excel_files (w : World) :
  writable (load_from_excel lib w) = writable w ∧
  AI_CACHE_FILE (load_from_excel lib w) = AI_CACHE_FILE w.
Proof.
  unfold load_from_excel. destruct (DATA_FILE w) as [wb|]; [|done].
  destruct (save_cache_files (foldl (load_level lib wb) w ng_levels))
    as [-> ->].
  apply load_levels_files.
Qed.

Lemma load_elden_ring_data_files (force_reload : bool) (w : World) :
  writable (load_elden_ring_data lib force_reload w) = writable w ∧
  AI_CACHE_FILE (load_elden_ring_data lib force_reload w) = AI_CACHE_FILE w.
Proof.
  unfold load_elden_ring_data.
  destruct (if force_reload then None else CACHE_FILE w) as [[d|]|].
  - done.
  - apply (load_from_excel_files (print CacheLoadFailed w)).
  - apply load_from_excel_files.
Qed.

(** X14: from start-up on, while the cache directory can be written,
    the advisory cache file holds exactly the strategies the process
    holds, after any run of lookups and admin updates: a restart loses
    none and brings none back. *)
Theorem cache_file_mirrors (rs : list request) (w : World) :
  writable w = true →
  load_ai_cache (serve_all lib advisor rs (startup lib w))
  = ai_cache (serve_all lib advisor rs (startup lib w)).
Proof.
  intros Hw. apply serve_all_mirrored.
  - unfold startup. cbn [writable set_ai_cache].
    by destruct (load_elden_ring_data_files false w) as [-> _].
  - unfold startup, mirrored, load_ai_cache. reflexivity.
Qed.

(** X15: the admin reaches the strategy a lookup returns by naming the
    enemy with its location: an update for the name, [_] and the location
    stores under the key of the lookup, which then returns the new text,
    whatever was cached, and sends nothing. *)
Theorem admin_override_with_location (d : Details) (text : string) (w : World) :
  text ≠ "" →
  (update_ai_cache
     (Some (py_str lib (name d) ++ "_" ++ py_str lib (location d)))
     (Some text) w).1
  = Updated (cache_key lib (EnemySubject d)) ∧
  analyze_with_ai lib advisor (EnemySubject d)
    (update_ai_cache
       (Some (py_str lib (name d) ++ "_" ++ py_str lib (location d)))
       (Some text) w).2
  = (text,
     (update_ai_cache
        (Some (py_str lib (name d) ++ "_" ++ py_str lib (location d)))
        (Some text) w).2) ∧
  view_ai_cache
    (update_ai_cache
       (Some (py_str lib (name d) ++ "_" ++ py_str lib (location d)))
       (Some text) w).2
    (py_str lib (name d) ++ "_" ++ py_str lib (location d))
  = Some text.
Proof.
  intros Ht.
  destruct (update_ai_cache_world
              (Some (py_str lib (name d) ++ "_" ++ py_str lib (location d)))
              (Some text) w)
    as [[Hf _]|(n0 & x & [= <-] & [= <-] & _ & _ & Hrun)].
  - exfalso. cbn [falsy] in Hf.
    apply orb_prop in Hf as [Hf|Hf]; apply bool_decide_eq_true in Hf; [|done].
    destruct (py_str lib (name d)); discriminate.
  - rewrite Hrun. cbn [fst snd].
    assert (Hc : ai_cache
                   (save_ai_cache
                      (<[cache_key lib (EnemySubject d) := text]> (ai_cache w))
                      (set_ai_cache
                         (<[cache_key lib (EnemySubject d) := text]> (ai_cache w))
                         w))
                 !! cache_key lib (EnemySubject d) = Some text).
    { rewrite save_ai_cache_ai_cache. cbn [ai_cache set_ai_cache].
      by rewrite lookup_insert_eq. }
    split; [reflexivity|]. split; [|exact Hc].
    exact (analyze_with_ai_hit lib advisor (EnemySubject d) _ text Hc).
Qed.

(** X16: an accepted update is what the view of that name then shows,
    under the key [enemy_] and the name, the views of the other names
    being as before; an update is refused exactly when the name or the
    strategy is missing or empty, and then changes nothing. *)
Theorem update_then_view (enemy_name new_strategy : option string) (w : World) :
  match (update_ai_cache enemy_name new_strategy w).1 with
  | Updated key =>
      ∃ n text,
        enemy_name = Some n ∧ new_strategy = Some text ∧ n ≠ "" ∧ text ≠ "" ∧
        key = "enemy_" ++ n ∧
        view_ai_cache (update_ai_cache enemy_name new_strategy w).2 n
        = Some text ∧
        ∀ n', n' ≠ n →
              view_ai_cache (update_ai_cache enemy_name new_strategy w).2 n'
              = view_ai_cache w n'
  | MissingField =>
      (enemy_name = None ∨ enemy_name = Some "" ∨
       new_strategy = None ∨ new_strategy = Some "") ∧
      (update_ai_cache enemy_name new_strategy w).2 = w
  end.
Proof.
  destruct (update_ai_cache_world enemy_name new_strategy w)
    as [[Hf ->]|(n & text & -> & -> & Hn & Ht & ->)]; cbn [fst snd].
  - split; [|done].
    destruct enemy_name as [n|]; [|by left].
    destruct new_strategy as [text|]; [|by right; right; left].
    cbn [falsy] in Hf.
    apply orb_prop in Hf as [Hf|Hf]; apply bool_decide_eq_true in Hf; subst.
    + by right; left.
    + by right; right; right.
  - exists n, text. repeat (split; [done|]). unfold view_ai_cache.
    rewrite save_ai_cache_ai_cache. cbn [ai_cache set_ai_cache].
    split; [by rewrite lookup_insert_eq|].
    intros n' Hne. rewrite lookup_insert_ne; [done|].
    unfold admin_key. intros E. apply Hne. symmetry.
    by apply (inj (String.append "enemy_")) in E.
Qed.

Lemma region_key_apart (a b : string) : "region_" ++ a ≠ "enemy_" ++ b.
Proof. intros E. simpl in E. discriminate. Qed.

(** The answer of a lookup depends on the process through the entry of
    its key and the calls made so far. *)
Lemma analyze_with_ai_answer (s : subject) (w v : World) :
  ai_cache v !! cache_key lib s = ai_cache w !! cache_key lib s →
  sent v = sent w →
  (analyze_with_ai lib advisor s v).1 = (analyze_with_ai lib advisor s w).1.
Proof.
  intros Hc Hs. unfold analyze_with_ai. rewrite Hc, Hs.
  by repeat case_match.
Qed.

(** X17: region advice and enemy advice are kept apart: no admin update
    changes what a region lookup answers, no enemy lookup touches the
    entry of a region, and no region lookup changes what the view of an
    enemy shows. *)
Theorem region_advice_apart (r : RegionStats) (w : World) :
  (∀ n t, (analyze_with_ai lib advisor (RegionSubject r)
             (update_ai_cache n t w).2).1
          = (analyze_with_ai lib advisor (RegionSubject r) w).1) ∧
  (∀ d, ai_cache (analyze_with_ai lib advisor (EnemySubject d) w).2
          !! cache_key lib (RegionSubject r)
        = ai_cache w !! cache_key lib (RegionSubject r)) ∧
  (∀ n, view_ai_cache (analyze_with_ai lib advisor (RegionSubject r) w).2 n
        = view_ai_cache w n).
Proof.
  split; [|split].
  - intros n t. apply analyze_with_ai_answer.
    + destruct (update_ai_cache_world n t w)
        as [[_ ->]|(n0 & x & _ & _ & _ & _ & ->)]; cbn [snd]; [done|].
      rewrite save_ai_cache_ai_cache. cbn [ai_cache set_ai_cache].
      rewrite lookup_insert_ne; [done|].
      intros E. by apply (region_key_apart (region r) n0).
    + destruct (update_ai_cache_world n t w)
        as [[_ ->]|(n0 & x & _ & _ & _ & _ & ->)]; cbn [snd]; [done|].
      by rewrite save_ai_cache_sent.
  - intros d.
    destruct (analyze_with_ai_world (EnemySubject d) w)
      as [(x & _ & ->)|[[_ ->]|(x & _ & ->)]]; cbn [snd]; try done.
    rewrite save_ai_cache_ai_cache. cbn [ai_cache set_ai_cache].
    rewrite lookup_insert_ne; [done|].
    intros E. by apply (region_key_apart (region r)
                          (py_str lib (name d) ++ "_" ++ py_str lib (location d))).
  - intros n. unfold view_ai_cache.
    destruct (analyze_with_ai_world (RegionSubject r) w)
      as [(x & _ & ->)|[[_ ->]|(x & _ & ->)]]; cbn [snd]; try done.
    rewrite save_ai_cache_ai_cache. cbn [ai_cache set_ai_cache].
    rewrite lookup_insert_ne; [done|]. apply region_key_apart.
Qed.

(** What a lookup answers is what is cached under its key afterwards,
    or the fallback with nothing cached. *)
Lemma analyze_with_ai_cached (s : subject) (w : World) :
  ai_cache (analyze_with_ai lib advisor s w).2 !! cache_key lib s
  = Some (analyze_with_ai lib advisor s w).1 ∨
  ((analyze_with_ai lib advisor s w).1 = fallback ∧
   ai_cache w !! cache_key lib s = None ∧
   (analyze_with_ai lib advisor s w).2
   = record_call (prompt_for advisor s) w).
Proof.
  destruct (analyze_with_ai_world s w)
    as [(x & Hc & ->)|[[Hc ->]|(x & _ & ->)]]; cbn [fst snd].
  - by left.
  - by right.
  - left. rewrite save_ai_cache_ai_cache. cbn [ai_cache set_ai_cache].
    by rewrite lookup_insert_eq.
Qed.

(** X18: the two routes that advise answer what the query returns with,
    as strategy, the text cached under the key of the subject when they
    return, or the fallback when the service failed, nothing being
    cached then; an answer without a subject, or a query that raises,
    leaves the process as it was: nothing is sent to the service. *)
Theorem routes_answer_from_cache (w : World) (ng : option string) :
  (∀ enemy_name loc,
     match (api_get_enemy lib advisor w enemy_name ng loc).1 with
     | Ok (Some (d, strategy)) =>
         get_enemy_details lib w enemy_name loc
           (plus_for_space (default "NG" ng)) = Ok (Some d) ∧
         (ai_cache (api_get_enemy lib advisor w enemy_name ng loc).2
            !! cache_key lib (EnemySubject d) = Some strategy ∨
          (strategy = fallback ∧
           ai_cache (api_get_enemy lib advisor w enemy_name ng loc).2
           = ai_cache w ∧
           ai_cache w !! cache_key lib (EnemySubject d) = None))
     | _ => (api_get_enemy lib advisor w enemy_name ng loc).2 = w
     end) ∧
  (∀ region_name,
     match (api_get_region lib advisor w region_name ng).1 with
     | Ok (Some (stats, strategy)) =>
         calculate_region_average lib w region_name
           (plus_for_space (default "NG" ng)) = Ok (Some stats) ∧
         (ai_cache (api_get_region lib advisor w region_name ng).2
            !! cache_key lib (RegionSubject stats) = Some strategy ∨
          (strategy = fallback ∧
           ai_cache (api_get_region lib advisor w region_name ng).2
           = ai_cache w ∧
           ai_cache w !! cache_key lib (RegionSubject stats) = None))
     | _ => (api_get_region lib advisor w region_name ng).2 = w
     end).
Proof.
  split.
  - intros enemy_name loc. unfold api_get_enemy.
    destruct (get_enemy_details lib w enemy_name loc
                (plus_for_space (default "NG" ng))) as [[d|]|e];
      cbn [fst snd]; try done.
    split; [done|].
    destruct (analyze_with_ai_cached (EnemySubject d) w)
      as [H|(H1 & H2 & H3)]; [by left|].
    right. rewrite H3. done.
  - intros region_name. unfold api_get_region.
    destruct (calculate_region_average lib w region_name
                (plus_for_space (default "NG" ng))) as [[stats|]|e];
      cbn [fst snd]; try done.
    split; [done|].
    destruct (analyze_with_ai_cached (RegionSubject stats) w)
      as [H|(H1 & H2 & H3)]; [by left|].
    right. rewrite H3. done.
Qed.

End AdvisoryRuns.

(** The strategy cached for Runebear at Limgrave is still there after a
    day with a lookup of it, an admin update for the bare name, a lookup
    of the Runebear of Caelid and a refused update. *)
Lemma cached_strategy_stays_witness :
  let advisor := scripted [Ok "Roll."] in
  Forall (spares "enemy_Runebear_Limgrave") busy_day ∧
  ai_cache advised_world !! "enemy_Runebear_Limgrave" = Some "Use fire." ∧
  ai_cache (serve_all example_lib advisor busy_day advised_world)
    !! "enemy_Runebear_Limgrave" = Some "Use fire." ∧
  (analyze_with_ai example_lib advisor runebear
     (serve_all example_lib advisor busy_day advised_world)).1 = "Use fire.".
Proof.
  intros advisor.
  assert (H1 : Forall (spares "enemy_Runebear_Limgrave") busy_day).
  { unfold busy_day.
    repeat (constructor;
            [first [exact I | intros E; vm_compute in E; discriminate E]|]).
    constructor. }
  assert (H2 : ai_cache advised_world !! "enemy_Runebear_Limgrave"
               = Some "Use fire.") by (vm_compute; reflexivity).
  destruct (cached_strategy_stays example_lib advisor busy_day advised_world
              "enemy_Runebear_Limgrave" "Use fire." H1 H2) as [Hc Hs].
  split; [exact H1|]. split; [exact H2|]. split; [exact Hc|].
  exact (f_equal fst (Hs runebear eq_refl)).
Defined.

(** A process started on the cache file of [advised_world] and serving
    the same day ends with three strategies, in memory and in the
    file. *)
Lemma cache_file_mirrors_witness :
  let advisor := scripted [Ok "Roll."] in
  let strategies : gmap string string :=
    {[ "enemy_Runebear_Limgrave" := "Use fire.";
       "enemy_Runebear" := "Hit it.";
       "enemy_Runebear_Caelid" := "Roll." ]} in
  writable (restarted advised_world) = true ∧
  load_ai_cache (serve_all example_lib advisor busy_day
                   (startup example_lib (restarted advised_world)))
  = strategies ∧
  ai_cache (serve_all example_lib advisor busy_day
              (startup example_lib (restarted advised_world)))
  = strategies.
Proof.
  intros advisor strategies.
  pose proof (cache_file_mirrors example_lib advisor busy_day
                (restarted advised_world) eq_refl) as H.
  assert (E : ai_cache (serve_all example_lib advisor busy_day
                          (startup example_lib (restarted advised_world)))
              = strategies) by (vm_compute; reflexivity).
  split; [reflexivity|]. split; [exact (eq_trans H E)|exact E].
Defined.

(** With "Use fire." cached for Runebear at Limgrave, the admin update
    for [Runebear_Limgrave] makes the lookup answer "Hit it.". *)
Lemma admin_override_with_location_witness :
  let advisor := scripted [] in
  "Hit it." ≠ "" ∧
  (analyze_with_ai example_lib advisor runebear advised_world).1
    = "Use fire." ∧
  (analyze_with_ai example_lib advisor runebear
     (update_ai_cache (Some "Runebear_Limgrave") (Some "Hit it.")
        advised_world).2).1 = "Hit it.".
Proof.
  intros advisor.
  assert (H1 : "Hit it." ≠ "") by discriminate.
  destruct (admin_override_with_location example_lib advisor runebear_details
              "Hit it." advised_world H1) as (_ & H & _).
  split; [exact H1|]. split; [vm_compute; reflexivity|].
  exact (f_equal fst H).
Defined.

(** ** The forced reload *)

Section Reload.

Context (lib : PyLib).


End Reload.


(** ** Advice across the levels *)

Section SharedAdvice.

Context (lib : PyLib) (advisor : Advisor).

Lemma get_enemy_details_data (w v : World) (enemy_name : string)
    (asked : option string) (ng_level : string) :
  elden_data v = elden_data w →
  get_enemy_details lib v enemy_name asked ng_level
  = get_enemy_details lib w enemy_name asked ng_level.
Proof. intros E. unfold get_enemy_details. by rewrite E. Qed.

Lemma analyze_with_ai_data (s : subject) (w : World) :
  elden_data (analyze_with_ai lib advisor s w).2 = elden_data w.
Proof.
  destruct (analyze_with_ai_world lib advisor s w)
    as [(x & _ & ->)|[[_ ->]|(x & _ & ->)]]; cbn [snd]; try done.
  unfold save_ai_cache. by destruct (writable _).
Qed.

(** The details asked for at a location where the enemy has a record. *)
Lemma details_at (w : World) (enemy_name loc ng_level : string) (r : Row) :
  level_ready details_ready w ng_level = true → loc ≠ "" →
  r ∈ name_matches w ng_level enemy_name →
  cell_is "Location" loc r = true →
  ∃ d, get_enemy_details lib w enemy_name (Some loc) ng_level = Ok (Some d) ∧
       name d = Str enemy_name ∧ location d = Str loc.
Proof.
  intros Hready Hne Hr Hat.
  destruct (get_enemy_details_narrowed lib w enemy_name (Some loc) ng_level
              Hready) as [Hd _].
  destruct (narrowed (name_matches w ng_level enemy_name) (Some loc))
    as [|enemy rest] eqn:E.
  { destruct Hd as [Hnone _]. rewrite Hnone in Hr.
    by apply not_elem_of_nil in Hr. }
  destruct Hd as (d & Hget & Hdet & _). exists d. split; [exact Hget|].
  apply enemy_details_fields in Hdet as (Hname & Hloc & _).
  assert (Hin : enemy ∈ narrowed (name_matches w ng_level enemy_name)
                          (Some loc)) by (rewrite E; left).
  split.
  - pose proof (narrowed_matches _ _ _ Hin) as Hm.
    apply list_elem_of_filter in Hm as [Hm _].
    apply cell_is_lookup in Hm. rewrite Hm in Hname. by injection Hname as <-.
  - pose proof (narrowed_at_location _ loc enemy r Hne Hr Hat Hin) as Hl.
    apply cell_is_lookup in Hl. rewrite Hloc. unfold row_get_default.
    by rewrite Hl.
Qed.

(** X20: the advice for an enemy at a location is shared by the levels:
    once the route has answered for the enemy at the location on one
    level with a strategy of the service or of the cache, the request
    for the same name and location on another level answers the details
    of that level with the same strategy, and the process is as it was:
    the service is not asked about the other level. *)
Theorem advice_shared_across_levels (w : World) (enemy_name loc : string)
    (ng1 ng2 : option string) (r1 r2 : Row) :
  level_ready details_ready w (plus_for_space (default "NG" ng1)) = true →
  level_ready details_ready w (plus_for_space (default "NG" ng2)) = true →
  loc ≠ "" →
  r1 ∈ name_matches w (plus_for_space (default "NG" ng1)) enemy_name →
  cell_is "Location" loc r1 = true →
  r2 ∈ name_matches w (plus_for_space (default "NG" ng2)) enemy_name →
  cell_is "Location" loc r2 = true →
  ∃ d1 d2 strategy,
    (api_get_enemy lib advisor w enemy_name ng1 (Some loc)).1
    = Ok (Some (d1, strategy)) ∧
    get_enemy_details lib w enemy_name (Some loc)
      (plus_for_space (default "NG" ng2)) = Ok (Some d2) ∧
    ((strategy = fallback ∧
      ai_cache (api_get_enemy lib advisor w enemy_name ng1 (Some loc)).2
      = ai_cache w) ∨
     api_get_enemy lib advisor
       (api_get_enemy lib advisor w enemy_name ng1 (Some loc)).2
       enemy_name ng2 (Some loc)
     = (Ok (Some (d2, strategy)),
        (api_get_enemy lib advisor w enemy_name ng1 (Some loc)).2)).
Proof.
  intros Hready1 Hready2 Hne Hr1 Hat1 Hr2 Hat2.
  destruct (details_at w enemy_name loc _ r1 Hready1 Hne Hr1 Hat1)
    as (d1 & Hget1 & Hn1 & Hl1).
  destruct (details_at w enemy_name loc _ r2 Hready2 Hne Hr2 Hat2)
    as (d2 & Hget2 & Hn2 & Hl2).
  exists d1, d2, (analyze_with_ai lib advisor (EnemySubject d1) w).1.
  assert (Hrun : api_get_enemy lib advisor w enemy_name ng1 (Some loc)
                 = (Ok (Some (d1, (analyze_with_ai lib advisor
                                     (EnemySubject d1) w).1)),
                    (analyze_with_ai lib advisor (EnemySubject d1) w).2)).
  { unfold api_get_enemy. by rewrite Hget1. }
  rewrite Hrun. cbn [fst snd]. split; [reflexivity|]. split; [exact Hget2|].
  destruct (analyze_with_ai_cached lib advisor (EnemySubject d1) w)
    as [Hc|(Hf & _ & Hw)].
  - right. unfold api_get_enemy.
    rewrite (get_enemy_details_data w) by apply analyze_with_ai_data.
    rewrite Hget2.
    assert (Hkey : cache_key lib (EnemySubject d2)
                   = cache_key lib (EnemySubject d1)).
    { unfold cache_key. by rewrite Hn1, Hl1, Hn2, Hl2. }
    rewrite (analyze_with_ai_hit lib advisor (EnemySubject d2) _
               (analyze_with_ai lib advisor (EnemySubject d1) w).1);
      [reflexivity|].
    by rewrite Hkey.
  - left. split; [exact Hf|]. by rewrite Hw.
Qed.

End SharedAdvice.

(** The Wolf of Limgrave is asked for on [NG], then on [NG+] (written
    with a space): the service is called once, and both answers carry
    its one strategy. *)
Lemma advice_shared_across_levels_witness :
  let advisor := scripted [Ok "Bleed it."; Ok "Burn it."] in
  let r1 := default ∅ (rows stat_frame !! 3%nat) in
  let r2 := default ∅ (rows poise_frame !! 1%nat) in
  let first :=
    api_get_enemy example_lib advisor two_level_world "Wolf" None
      (Some "Limgrave") in
  level_ready details_ready two_level_world "NG" = true ∧
  level_ready details_ready two_level_world "NG+" = true ∧
  "Limgrave" ≠ "" ∧
  r1 ∈ name_matches two_level_world "NG" "Wolf" ∧
  cell_is "Location" "Limgrave" r1 = true ∧
  r2 ∈ name_matches two_level_world "NG+" "Wolf" ∧
  cell_is "Location" "Limgrave" r2 = true ∧
  (∃ d1 d2 strategy,
     first.1 = Ok (Some (d1, strategy)) ∧
     get_enemy_details example_lib two_level_world "Wolf" (Some "Limgrave")
       "NG+" = Ok (Some d2) ∧
     ((strategy = fallback ∧ ai_cache first.2 = ai_cache two_level_world) ∨
      api_get_enemy example_lib advisor first.2 "Wolf" (Some "NG ")
        (Some "Limgrave")
      = (Ok (Some (d2, strategy)), first.2))) ∧
  sent (api_get_enemy example_lib advisor first.2 "Wolf" (Some "NG ")
          (Some "Limgrave")).2
  = ["Analyze enemy_Wolf_Limgrave"] ∧
  ai_cache first.2 = {[ "enemy_Wolf_Limgrave" := "Bleed it." ]}.
Proof.
  intros advisor r1 r2 first.
  assert (H1 : level_ready details_ready two_level_world "NG" = true)
    by (vm_compute; reflexivity).
  assert (H2 : level_ready details_ready two_level_world "NG+" = true)
    by (vm_compute; reflexivity).
  assert (H3 : "Limgrave" ≠ "") by discriminate.
  assert (H4 : r1 ∈ name_matches two_level_world "NG" "Wolf").
  { apply (list_elem_of_lookup_2 _ 0%nat). vm_compute. reflexivity. }
  assert (H5 : cell_is "Location" "Limgrave" r1 = true)
    by (vm_compute; reflexivity).
  assert (H6 : r2 ∈ name_matches two_level_world "NG+" "Wolf").
  { apply (list_elem_of_lookup_2 _ 0%nat). vm_compute. reflexivity. }
  assert (H7 : cell_is "Location" "Limgrave" r2 = true)
    by (vm_compute; reflexivity).
  repeat (split; [assumption|]).
  split.
  - exact (advice_shared_across_levels example_lib advisor two_level_world
             "Wolf" "Limgrave" None (Some "NG ") r1 r2 H1 H2 H3 H4 H5 H6 H7).
  - split; vm_compute; reflexivity.
Defined.
